(** * Hugo72: a three-stage batch pipeline

    Shallow embedding of the three command-line programs of the repository

      - [phase1/src/excel2json.go]  spreadsheet rows to a JSON summary,
      - [phase2/src/hugo.go]        wrapper around the site generator,
      - the FTP upload client       (configuration section [phase3]),

    and the properties of their behaviour.  Pure Go code becomes Rocq
    functions; a run-time panic is an error value of the [sum] monad; calls
    into the operating system and into the spreadsheet and FTP libraries
    append to a chronological trace, held by a state monad, and take their
    outcome from a record that describes the outside world. *)

From Stdlib Require Import String Ascii List ZArith Lia Bool DecimalString.
From ExtLib Require Import Structures.Monad Structures.MonadState
  Data.Monads.EitherMonad Data.Monads.StateMonad.
Import ListNotations.
Import MonadNotation.
Local Open Scope string_scope.
Local Open Scope monad_scope.

(* ===================================================================== *)
(** * The Go run time and standard library, as far as the programs use it *)
(* ===================================================================== *)

Module Go.

(** A run-time panic.  The only one the programs can raise is an index out of
    range: index [idx] into a slice of length [len]. *)
Inductive Panic : Type :=
| IndexOutOfRange (idx len : nat).

(** [s[i]]: the element, or the panic. *)
Definition index {A : Type} (s : list A) (i : nat) : sum Panic A :=
  match nth_error s i with
  | Some x => inr x
  | None => inl (IndexOutOfRange i (List.length s))
  end.

(** Go's [int] on a 64-bit platform: arithmetic wraps around in two's
    complement. *)
Definition int_min : Z := - 2 ^ 63.
Definition int_max : Z := 2 ^ 63 - 1.

Definition int_wrap (z : Z) : Z := (z + 2 ^ 63) mod 2 ^ 64 - 2 ^ 63.

(** [n++] on an [int]. *)
Definition int_incr (n : Z) : Z := int_wrap (n + 1).

(** [int64(n)] for an [int] [n]: the same value. *)
Definition int64_of_int (n : Z) : Z := n.

(** An [error] value: the programs only print it, so its message is enough. *)
Definition error : Type := string.

(** Process exit status: [main] returning gives 0, [log.Fatalf] calls
    [os.Exit(1)], an unrecovered panic gives 2. *)
Definition exit_success : Z := 0.
Definition exit_fatal : Z := 1.
Definition exit_panic : Z := 2.

(** ** [strings.TrimSpace]

    Go strings are byte sequences holding UTF-8.  [TrimSpace] removes, from
    both ends, every rune for which [unicode.IsSpace] holds: the six ASCII
    ones and U+0085, U+00A0, U+1680, U+2000 to U+200A, U+2028, U+2029,
    U+202F, U+205F, U+3000.  A byte sequence that is no valid encoding
    decodes to [RuneError], which is no space, so trimming stops there. *)

Definition byte_of (c : ascii) : N := N_of_ascii c.

(** ['\t', '\n', '\v', '\f', '\r', ' ']. *)
Definition isAsciiSpace (c : ascii) : bool :=
  let n := byte_of c in
  ((9 <=? n) && (n <=? 13) || (n =? 32))%N.

(** The two-byte encodings [b1 b2] of U+0085 and U+00A0. *)
Definition isSpace2 (b1 b2 : ascii) : bool :=
  let n1 := byte_of b1 in
  let n2 := byte_of b2 in
  ((n1 =? 194) && ((n2 =? 133) || (n2 =? 160)))%N.

(** The three-byte encodings [b1 b2 b3] of the white space above U+00FF. *)
Definition isSpace3 (b1 b2 b3 : ascii) : bool :=
  let n1 := byte_of b1 in
  let n2 := byte_of b2 in
  let n3 := byte_of b3 in
  ((n1 =? 225) && (n2 =? 154) && (n3 =? 128)
   || (n1 =? 226) && (n2 =? 128)
      && ((128 <=? n3) && (n3 <=? 138) || (n3 =? 168) || (n3 =? 169)
          || (n3 =? 175))
   || (n1 =? 226) && (n2 =? 129) && (n3 =? 159)
   || (n1 =? 227) && (n2 =? 128) && (n3 =? 128))%N.

(** [strings.TrimLeftFunc(s, unicode.IsSpace)] on the bytes of [s]. *)
Fixpoint trimLeft (s : list ascii) : list ascii :=
  match s with
  | [] => []
  | b1 :: t1 =>
      if isAsciiSpace b1 then trimLeft t1
      else
        match t1 with
        | [] => s
        | b2 :: t2 =>
            if isSpace2 b1 b2 then trimLeft t2
            else
              match t2 with
              | [] => s
              | b3 :: t3 => if isSpace3 b1 b2 b3 then trimLeft t3 else s
              end
        end
  end.

(** [strings.TrimRightFunc(s, unicode.IsSpace)], on the reversed bytes: the
    last rune is decoded backwards from the end, so the encodings are met
    last byte first. *)
Fixpoint trimRightRev (r : list ascii) : list ascii :=
  match r with
  | [] => []
  | b1 :: t1 =>
      if isAsciiSpace b1 then trimRightRev t1
      else
        match t1 with
        | [] => r
        | b2 :: t2 =>
            if isSpace2 b2 b1 then trimRightRev t2
            else
              match t2 with
              | [] => r
              | b3 :: t3 => if isSpace3 b3 b2 b1 then trimRightRev t3 else r
              end
        end
  end.

Definition TrimSpace (s : string) : string :=
  string_of_list_ascii
    (rev (trimRightRev (rev (trimLeft (list_ascii_of_string s))))).

(** ** [time.Time.Format] with the layout ["2.1.2006 15.04.05"] *)

Record Time : Type := mkTime {
  year : nat; month : nat; day : nat;
  hour : nat; minute : nat; second : nat
}.

Definition decimal (n : nat) : string := NilEmpty.string_of_uint (Nat.to_uint n).

Fixpoint zeros (k : nat) : string :=
  match k with
  | O => ""
  | S k' => "0" ++ zeros k'
  end.

(** Decimal digits of [n], padded with zeros on the left to [width]. *)
Definition padded (width n : nat) : string :=
  let d := decimal n in zeros (width - String.length d) ++ d.

(** Day and month unpadded, year on four digits, hour, minute and second on
    two. *)
Definition Format (t : Time) : string :=
  decimal (day t) ++ "." ++ decimal (month t) ++ "." ++ padded 4 (year t)
  ++ " " ++ padded 2 (hour t) ++ "." ++ padded 2 (minute t) ++ "."
  ++ padded 2 (second t).

End Go.

(* ===================================================================== *)
(** * Stage 1: [phase1/src/excel2json.go] *)
(* ===================================================================== *)

Module Excel2Json.

Record Config : Type := mkConfig {
  InputFile : string;
  OutputFile : string
}.

(** [type Prijde string] with its three named constants.  The type itself is
    every string. *)
Definition Prijde : Type := string.
Definition Ano : Prijde := "Ano".
Definition Empty : Prijde := "".
Definition Ne : Prijde := "Ne".

Record User : Type := mkUser {
  Jmeno : string;
  Email : string;
  Prijde_ : Prijde
}.

Record Info : Type := mkInfo {
  LastUpdate : string;
  Nadpis : string;
  Zprava : string;
  PocetZaznamu : Z;
  PocetAno : Z
}.

Record Data72 : Type := mkData72 {
  Info_ : Info;
  Users : list User
}.

(** The variables the [for ... range rows] loop of [processRows] updates. *)
Record LoopState : Type := mkLoop {
  users : list User;
  totalRecords : Z;
  totalAno : Z
}.

(** [len(row) < 6 || row[1] == ""], the right operand evaluated only when the
    left one is false. *)
Definition endOfData (row : list string) : sum Go.Panic bool :=
  if (List.length row <? 6)%nat then ret true
  else name <- Go.index row 1 ;; ret (name =? "").

(** The loop [for i, row := range rows], started at index [i] with the
    remaining rows: [continue] for [i < 3], [break] at the end of data. *)
Fixpoint rangeRows (i : nat) (rows : list (list string)) (st : LoopState)
  : sum Go.Panic LoopState :=
  match rows with
  | [] => inr st
  | row :: rest =>
      if (i <? 3)%nat then rangeRows (S i) rest st
      else
        match endOfData row with
        | inl p => inl p
        | inr true => inr st
        | inr false =>
            match
              (jmeno <- Go.index row 1 ;;
               email <- Go.index row 5 ;;
               prijde <- Go.index row 0 ;;
               ret (mkUser jmeno email prijde))
            with
            | inl p => inl p
            | inr user =>
                let ano :=
                  if Prijde_ user =? Ano then Go.int_incr (totalAno st)
                  else totalAno st in
                rangeRows (S i) rest
                  (mkLoop (users st ++ [user])
                          (Go.int_incr (totalRecords st)) ano)
            end
        end
  end.

(** [if len(rows) > 1 { Nadpis = rows[0][1]; Zprava = rows[1][1] }]. *)
Definition heading (rows : list (list string))
  : sum Go.Panic (string * string) :=
  if (1 <? List.length rows)%nat then
    row0 <- Go.index rows 0 ;;
    nadpis <- Go.index row0 1 ;;
    row1 <- Go.index rows 1 ;;
    zprava <- Go.index row1 1 ;;
    ret (nadpis, zprava)
  else ret ("", "").

(** [processRows], with the reading [now] of the wall clock that
    [time.Now()] returns. *)
Definition processRows (now : Go.Time) (rows : list (list string))
  : sum Go.Panic Data72 :=
  h <- heading rows ;;
  st <- rangeRows 0 rows (mkLoop [] 0 0) ;;
  ret (mkData72
         (mkInfo (Go.Format now) (fst h) (snd h)
                 (Go.int64_of_int (totalRecords st))
                 (Go.int64_of_int (totalAno st)))
         (users st)).

(** ** The program around [processRows] *)

(** The first sheet of an opened workbook: its name and what
    [GetRows] returns for a sheet name. *)
Record ExcelFile : Type := mkExcelFile {
  GetSheetName0 : string;
  GetRows : string -> sum Go.error (list (list string))
}.

(** What the program does to the outside world, in order. *)
Inductive Event : Type :=
| OsOpen (path : string)
| FileClose (path : string)
| ExcelOpenFile (path : string)
| ExcelClose (path : string)
| OsCreate (path : string)
| JsonEncode (path : string) (data : Data72)
| Println (line : string)
| PanicExit (p : Go.Panic).

(** What the outside world answers. *)
Record World : Type := mkWorld {
  os_Open : string -> sum Go.error string;
  json_Decode : string -> sum Go.error Config;
  excelize_OpenFile : string -> sum Go.error ExcelFile;
  time_Now : Go.Time;
  os_Create : string -> option Go.error;
  json_Encode : string -> Data72 -> option Go.error
}.

Definition IO : Type -> Type := state (list Event).

Definition emit (e : Event) : IO unit :=
  tr <- get ;; put (tr ++ [e])%list.

Section Program.
Variable w : World.

Definition loadConfig (filePath : string) : IO (sum Go.error Config) :=
  emit (OsOpen filePath) ;;
  match os_Open w filePath with
  | inl err => ret (inl err)
  | inr file =>
      let r := json_Decode w file in
      emit (FileClose filePath) ;;
      ret r
  end.

Definition openExcelFile (filePath : string) : IO (sum Go.error ExcelFile) :=
  emit (ExcelOpenFile filePath) ;;
  ret (excelize_OpenFile w filePath).

Definition writeJSONFile (filePath : string) (data : Data72)
  : IO (option Go.error) :=
  emit (OsCreate filePath) ;;
  match os_Create w filePath with
  | Some err => ret (Some err)
  | None =>
      emit (JsonEncode filePath data) ;;
      let r := json_Encode w filePath data in
      emit (FileClose filePath) ;;
      ret r
  end.

(** The statements of [main] that follow [defer excelFile.Close()]: the exit
    status [main] returns with, or the panic that unwinds it. *)
Definition convert (config : Config) (excelFile : ExcelFile)
  : IO (sum Go.Panic Z) :=
  let sheetName := GetSheetName0 excelFile in
  match GetRows excelFile sheetName with
  | inl err =>
      emit (Println ("Chyba při čtení řádků ze souboru: " ++ err)) ;;
      ret (inr Go.exit_success)
  | inr rows =>
      match processRows (time_Now w) rows with
      | inl p => ret (inl p)
      | inr data =>
          e <- writeJSONFile (OutputFile config) data ;;
          match e with
          | Some err =>
              emit (Println ("Chyba při zápisu JSON souboru: " ++ err)) ;;
              ret (inr Go.exit_success)
          | None =>
              emit (Println ("Soubor " ++ OutputFile config
                             ++ " byl úspěšně vytvořen.")) ;;
              ret (inr Go.exit_success)
          end
      end
  end.

(** [main]; the value is the exit status of the process.  Every error branch
    prints and returns from [main], which ends the process with status 0; a
    panic runs the deferred [Close] and ends it with status 2. *)
Definition main : IO Z :=
  c <- loadConfig "config.json" ;;
  match c with
  | inl err =>
      emit (Println ("Chyba při načítání konfigurace: " ++ err)) ;;
      ret Go.exit_success
  | inr config =>
      f <- openExcelFile (InputFile config) ;;
      match f with
      | inl err =>
          emit (Println ("Chyba při otevírání Excel souboru: " ++ err)) ;;
          ret Go.exit_success
      | inr excelFile =>
          r <- convert config excelFile ;;
          emit (ExcelClose (InputFile config)) ;;
          match r with
          | inl p => emit (PanicExit p) ;; ret Go.exit_panic
          | inr status => ret status
          end
      end
  end.

End Program.

(** Running the program from the empty trace. *)
Definition run (w : World) : Z * list Event := runState (main w) [].

End Excel2Json.

(* ===================================================================== *)
(** * Stage 2: [phase2/src/hugo.go] *)
(* ===================================================================== *)

Module Hugo.

Inductive Event : Type :=
| OsChdir (dir : string)
| ExecRun (name : string)
| Log (line : string).

Record World : Type := mkWorld {
  os_Chdir : string -> option Go.error;
  (** [exec.Command(name).Run()]: an error when the command cannot be
      started or ends with a status other than 0. *)
  exec_Run : string -> option Go.error
}.

Definition IO : Type -> Type := state (list Event).

Definition emit (e : Event) : IO unit :=
  tr <- get ;; put (tr ++ [e])%list.

(** [log.Fatalf]: the line is logged and the process exits with status 1. *)
Definition logFatalf (line : string) : IO Z :=
  emit (Log line) ;; ret Go.exit_fatal.

Definition main (w : World) : IO Z :=
  emit (OsChdir "phase2") ;;
  match os_Chdir w "phase2" with
  | Some err => logFatalf ("Failed to change directory: " ++ err)
  | None =>
      emit (ExecRun "hugo") ;;
      match exec_Run w "hugo" with
      | Some err => logFatalf ("Hugo build failed: " ++ err)
      | None =>
          emit (Log "Hugo build succeeded") ;;
          ret Go.exit_success
      end
  end.

Definition run (w : World) : Z * list Event := runState (main w) [].

End Hugo.

(* ===================================================================== *)
(** * Stage 3: the FTP upload client *)
(* ===================================================================== *)

Module Upload.

Record Config : Type := mkConfig {
  FtpHost : string;
  FtpUser : string;
  FtpPassword : string;
  RemoteDir : string;
  FilesToUpload : list string
}.

(** Every call that leaves the process, in order.  An event records that the
    call was made, whatever its outcome: [OsOpen path] is an attempt to open
    [path], [FtpStor name contents] the start of a transfer that stores
    [contents] on the server under the remote name [name]. *)
Inductive Event : Type :=
| OsOpen (path : string)
| FileClose (path : string)
| FtpDial (addr : string)
| FtpLogin (user password : string)
| FtpChangeDir (dir : string)
| FtpStor (name contents : string)
| FtpQuit
| Log (line : string).

(** What the outside world answers.  The file system and the server change
    while the program runs, so an answer may depend on the calls made so
    far. *)
Record World : Type := mkWorld {
  (** [os.Open]: the contents the opened file will be read to, or an
      error. *)
  os_Open : list Event -> string -> sum Go.error string;
  json_Decode : string -> sum Go.error Config;
  ftp_Dial : list Event -> string -> option Go.error;
  ftp_Login : list Event -> string -> string -> option Go.error;
  ftp_ChangeDir : list Event -> string -> option Go.error;
  ftp_Stor : list Event -> string -> string -> option Go.error
}.

Definition IO : Type -> Type := state (list Event).

Definition emit (e : Event) : IO unit :=
  tr <- get ;; put (tr ++ [e])%list.

(** A call to the outside: the world answers from the calls made before it,
    and the call is recorded. *)
Definition call {A : Type} (e : Event) (answer : list Event -> A) : IO A :=
  tr <- get ;; put (tr ++ [e])%list ;; ret (answer tr).

(** [log.Fatalf]: the line is logged and the process exits with status 1;
    deferred calls do not run. *)
Definition logFatalf (line : string) : IO Z :=
  emit (Log line) ;; ret Go.exit_fatal.

Section Program.
Variable w : World.

(** The value stands for the [*ftp.ServerConn]. *)
Definition connectToFtp (ftpServer ftpUser ftpPassword : string)
  : IO (sum Go.error unit) :=
  d <- call (FtpDial ftpServer) (fun tr => ftp_Dial w tr ftpServer) ;;
  match d with
  | Some err => ret (inl ("chyba při připojování k FTP serveru: " ++ err))
  | None =>
      l <- call (FtpLogin ftpUser ftpPassword)
                (fun tr => ftp_Login w tr ftpUser ftpPassword) ;;
      match l with
      | Some err => ret (inl ("chyba při přihlášení na FTP server: " ++ err))
      | None =>
          emit (Log "Úspěšně připojeno k FTP serveru.") ;;
          ret (inr tt)
      end
  end.

(** The statements of [uploadFile] that follow [defer file.Close()]. *)
Definition transfer (remoteDir localFile file : string)
  : IO (option Go.error) :=
  c <- call (FtpChangeDir remoteDir)
            (fun tr => ftp_ChangeDir w tr remoteDir) ;;
  match c with
  | Some err =>
      ret (Some ("chyba při změně adresáře na serveru '" ++ remoteDir
                 ++ "': " ++ err))
  | None =>
      s <- call (FtpStor localFile file)
                (fun tr => ftp_Stor w tr localFile file) ;;
      match s with
      | Some err =>
          ret (Some ("chyba při nahrávání souboru '" ++ localFile
                     ++ "' na server: " ++ err))
      | None =>
          emit (Log ("Soubor '" ++ localFile
                     ++ "' byl úspěšně nahrán na server.")) ;;
          ret None
      end
  end.

Definition uploadFile (remoteDir localFile : string) : IO (option Go.error) :=
  o <- call (OsOpen localFile) (fun tr => os_Open w tr localFile) ;;
  match o with
  | inl err =>
      ret (Some ("chyba při otevření lokálního souboru '" ++ localFile
                 ++ "': " ++ err))
  | inr file =>
      r <- transfer remoteDir localFile file ;;
      emit (FileClose localFile) ;;
      ret r
  end.

Definition loadConfig (filePath : string) : IO (sum Go.error Config) :=
  o <- call (OsOpen filePath) (fun tr => os_Open w tr filePath) ;;
  match o with
  | inl err =>
      ret (inl ("chyba při otevírání souboru konfigurace '" ++ filePath
                ++ "': " ++ err))
  | inr file =>
      let r :=
        match json_Decode w file with
        | inl err => inl ("chyba při dekódování konfigurace: " ++ err)
        | inr config => inr config
        end in
      emit (FileClose filePath) ;;
      ret r
  end.

(** The line [main] logs when [uploadFile] returns the error [err]. *)
Definition failure_line (file : string) (err : Go.error) : Event :=
  Log ("Chyba při nahrávání souboru '" ++ file ++ "': " ++ err).

(** The loop [for _, file := range config.Phase3.FilesToUpload] of [main]. *)
Fixpoint uploadAll (remoteDir : string) (files : list string) : IO unit :=
  match files with
  | [] => ret tt
  | file :: rest =>
      let file := Go.TrimSpace file in
      if file =? "" then uploadAll remoteDir rest
      else
        e <- uploadFile remoteDir file ;;
        match e with
        | Some err => emit (failure_line file err)
        | None => ret tt
        end ;;
        uploadAll remoteDir rest
  end.

(** [main]; the value is the exit status of the process. *)
Definition main : IO Z :=
  c <- loadConfig "config.json" ;;
  match c with
  | inl err => logFatalf ("Chyba při načítání konfigurace: " ++ err)
  | inr config =>
      conn <- connectToFtp (FtpHost config) (FtpUser config)
                           (FtpPassword config) ;;
      match conn with
      | inl err => logFatalf ("Chyba: " ++ err)
      | inr _ =>
          uploadAll (RemoteDir config) (FilesToUpload config) ;;
          (* defer conn.Quit() *)
          emit FtpQuit ;;
          ret Go.exit_success
      end
  end.

End Program.

Definition run (w : World) : Z * list Event := runState (main w) [].

(** The local paths of the [os.Open] calls of a trace, in order. *)
Fixpoint opened (tr : list Event) : list string :=
  match tr with
  | [] => []
  | OsOpen path :: tr' => path :: opened tr'
  | _ :: tr' => opened tr'
  end.

(** The remote names under which a transfer was started. *)
Fixpoint stored (tr : list Event) : list string :=
  match tr with
  | [] => []
  | FtpStor name _ :: tr' => name :: stored tr'
  | _ :: tr' => stored tr'
  end.

End Upload.

(* ===================================================================== *)
(** * Notions of the specification *)
(* ===================================================================== *)

Module Spec.

(** The base name of a local path: the path with its directory components
    stripped, as [path/filepath.Base] computes it for the separator ["/"].
    None of the programs calls it. *)
Definition isSeparator (c : ascii) : bool := Ascii.eqb c "/".

Fixpoint dropSeparators (r : list ascii) : list ascii :=
  match r with
  | [] => []
  | c :: r' => if isSeparator c then dropSeparators r' else r
  end.

Fixpoint lastElement (r : list ascii) : list ascii :=
  match r with
  | [] => []
  | c :: r' => if isSeparator c then [] else c :: lastElement r'
  end.

Definition base_name (path : string) : string :=
  if path =? "" then "."
  else
    match dropSeparators (rev (list_ascii_of_string path)) with
    | [] => "/"
    | r => string_of_list_ascii (rev (lastElement r))
    end.

(** The first two rows of a grid, when it has at least two, have a cell in
    column 1. *)
Definition header_cells (rows : list (list string)) : bool :=
  match rows with
  | row0 :: row1 :: _ =>
      (2 <=? List.length row0)%nat && (2 <=? List.length row1)%nat
  | _ => true
  end.

(** The cell at row [r], column [c] of a grid, when there is one. *)
Definition cell (rows : list (list string)) (r c : nat) : option string :=
  match nth_error rows r with
  | Some row => nth_error row c
  | None => None
  end.

(** A row of the attendee table: at least six cells, the name in column 1
    not empty. *)
Definition data_row (row : list string) : Prop :=
  (6 <= List.length row)%nat /\ nth_error row 1 <> Some "".

(** A row that ends the attendee table. *)
Definition end_row (row : list string) : Prop :=
  (List.length row < 6)%nat \/ nth_error row 1 = Some "".

(** The record of a row: name from column 1, email from column 5, flag from
    column 0. *)
Definition record_of (row : list string) (u : Excel2Json.User) : Prop :=
  nth_error row 1 = Some (Excel2Json.Jmeno u)
  /\ nth_error row 5 = Some (Excel2Json.Email u)
  /\ nth_error row 0 = Some (Excel2Json.Prijde_ u).

(** The number of records whose flag is the yes marker. *)
Definition count_yes (us : list Excel2Json.User) : nat :=
  List.length
    (filter (fun u => Excel2Json.Prijde_ u =? Excel2Json.Ano) us).

(** The enumerated fatal conditions, program by program, read off the
    answers of the outside world. *)
Definition failed {A : Type} (e : option A) : bool :=
  match e with Some _ => true | None => false end.

(** Stage 2: the directory change or the subprocess fails. *)
Definition hugo_fatal (w : Hugo.World) : bool :=
  failed (Hugo.os_Chdir w "phase2") || failed (Hugo.exec_Run w "hugo").

(** Stage 3.  The trace once the configuration file is read. *)
Definition config_loaded : list Upload.Event :=
  [Upload.OsOpen "config.json"; Upload.FileClose "config.json"].

(** The connection dial or the authentication fails. *)
Definition connect_fails (w : Upload.World) (config : Upload.Config) : bool :=
  failed (Upload.ftp_Dial w config_loaded (Upload.FtpHost config))
  || failed
       (Upload.ftp_Login w
          (config_loaded ++ [Upload.FtpDial (Upload.FtpHost config)])%list
          (Upload.FtpUser config) (Upload.FtpPassword config)).

(** The trace once the connection is open and authenticated. *)
Definition connected (config : Upload.Config) : list Upload.Event :=
  (config_loaded
   ++ [Upload.FtpDial (Upload.FtpHost config);
       Upload.FtpLogin (Upload.FtpUser config) (Upload.FtpPassword config);
       Upload.Log "Úspěšně připojeno k FTP serveru."])%list.

(** The configuration cannot be loaded or parsed, or the connection
    fails. *)
Definition upload_fatal (w : Upload.World) : bool :=
  match Upload.os_Open w [] "config.json" with
  | inl _ => true
  | inr file =>
      match Upload.json_Decode w file with
      | inl _ => true
      | inr config => connect_fails w config
      end
  end.

(** Uploading [file] after the calls [tr] fails: the local file cannot be
    opened, the remote directory cannot be entered or the transfer fails. *)
Definition upload_fails (w : Upload.World) (remoteDir file : string)
  (tr : list Upload.Event) : bool :=
  match Upload.os_Open w tr file with
  | inl _ => true
  | inr contents =>
      failed (Upload.ftp_ChangeDir w (tr ++ [Upload.OsOpen file])%list
                remoteDir)
      || failed
           (Upload.ftp_Stor w
              (tr ++ [Upload.OsOpen file; Upload.FtpChangeDir remoteDir])%list
              file contents)
  end.

(** Stage 1: how a run ends. *)
Inductive Outcome : Type :=
| ConfigFailed      (* the configuration cannot be loaded or parsed *)
| OpenFailed        (* the workbook cannot be opened *)
| ReadFailed        (* the rows of the first sheet cannot be read *)
| Panicked          (* [processRows] panics *)
| WriteFailed       (* the summary file cannot be created or written *)
| Written.          (* the summary file is written *)

Definition excel_outcome (w : Excel2Json.World) : Outcome :=
  match Excel2Json.os_Open w "config.json" with
  | inl _ => ConfigFailed
  | inr file =>
      match Excel2Json.json_Decode w file with
      | inl _ => ConfigFailed
      | inr config =>
          match Excel2Json.excelize_OpenFile w (Excel2Json.InputFile config)
          with
          | inl _ => OpenFailed
          | inr f =>
              match Excel2Json.GetRows f (Excel2Json.GetSheetName0 f) with
              | inl _ => ReadFailed
              | inr rows =>
                  match Excel2Json.processRows (Excel2Json.time_Now w) rows
                  with
                  | inl _ => Panicked
                  | inr data =>
                      let path := Excel2Json.OutputFile config in
                      if failed (Excel2Json.os_Create w path)
                         || failed (Excel2Json.json_Encode w path data)
                      then WriteFailed
                      else Written
                  end
              end
          end
      end
  end.

(** The entries of a files list that are left after trimming. *)
Definition trimmed_entries (files : list string) : list string :=
  filter (fun f => negb (f =? "")) (map Go.TrimSpace files).

End Spec.

(* ===================================================================== *)
(** * Sample inputs *)
(* ===================================================================== *)

(** A grid for the examples: two header rows with the heading and the
    message, a third header row, two attendees, a row that ends the table
    and a row after it. *)
Definition sample_rows : list (list string) :=
  [ ["Akce"; "Sraz 72"];
    [""; "Potvrzujte do konce týdne"];
    ["Prijde"; "Jmeno"; ""; ""; ""; "email"];
    ["Ano"; "Jan Novak"; ""; ""; ""; "jan@example.cz"];
    ["Ne"; "Eva Mala"; ""; ""; ""; "eva@example.cz"; "pozn."];
    ["Ano"];
    ["Ano"; "Petr Zeman"; ""; ""; ""; "petr@example.cz"] ].

Definition sample_time : Go.Time := Go.mkTime 2024 3 7 9 5 0.

(** A grid whose first attendee answered with something else than the two
    markers. *)
Definition other_flag_rows : list (list string) :=
  [ ["Akce"; "Sraz 72"];
    [""; "Zprava"];
    [];
    ["Mozna"; "Jan Novak"; ""; ""; ""; "jan@example.cz"] ].

(** A grid of two rows whose first row has one cell. *)
Definition short_header_rows : list (list string) :=
  [ ["Akce"]; [""; "Zprava"] ].

(** A configuration of the upload client, with a padded entry, an empty one
    and a path with a directory. *)
Definition sample_config : Upload.Config :=
  Upload.mkConfig "ftp.example.com:21" "uzivatel" "heslo" "/www"
    [" report.pdf "; ""; "notes.txt"; "public/index.html"].

Definition sample_open (path : string) : sum Go.error string :=
  if path =? "config.json" then inr "{}"
  else if path =? "notes.txt" then inl "no such file or directory"
  else inr ("contents of " ++ path).

(** A world where the server accepts everything and [notes.txt] is missing
    from the local directory. *)
Definition sample_world : Upload.World :=
  Upload.mkWorld
    (fun _ path => sample_open path)
    (fun _ => inr sample_config)
    (fun _ _ => None)
    (fun _ _ _ => None)
    (fun _ _ => None)
    (fun _ _ _ => None).

(** The same world, with a server that refuses the password. *)
Definition refused_world : Upload.World :=
  Upload.mkWorld
    (fun _ path => sample_open path)
    (fun _ => inr sample_config)
    (fun _ _ => None)
    (fun _ _ _ => Some "530 Login incorrect")
    (fun _ _ => None)
    (fun _ _ _ => None).

(** A world of stage 1 without configuration file. *)
Definition no_config_world : Excel2Json.World :=
  Excel2Json.mkWorld
    (fun _ => inl "open config.json: no such file or directory")
    (fun _ => inr (Excel2Json.mkConfig "in.xlsx" "out.json"))
    (fun _ => inl "no such file")
    sample_time
    (fun _ => None)
    (fun _ _ => None).

(** A workbook whose first sheet holds the given rows. *)
Definition workbook (rows : list (list string)) : Excel2Json.ExcelFile :=
  Excel2Json.mkExcelFile "List1" (fun _ => inr rows).

(** A world of stage 1 where every step succeeds on the workbook [f]. *)
Definition excel_world (f : Excel2Json.ExcelFile) : Excel2Json.World :=
  Excel2Json.mkWorld
    (fun _ => inr "{}")
    (fun _ => inr (Excel2Json.mkConfig "in.xlsx" "out.json"))
    (fun _ => inr f)
    sample_time
    (fun _ => None)
    (fun _ _ => None).


(** A world of stage 3 whose configuration file cannot be parsed. *)
Definition bad_config_world : Upload.World :=
  Upload.mkWorld
    (fun _ path => inr ("contents of " ++ path))
    (fun _ => inl "unexpected end of JSON input")
    (fun _ _ => None)
    (fun _ _ _ => None)
    (fun _ _ => None)
    (fun _ _ _ => None).

(** A world of stage 3 whose list of files holds blank entries only. *)
Definition blank_config : Upload.Config :=
  Upload.mkConfig "ftp.example.com:21" "uzivatel" "heslo" "/www" ["  "; ""].

Definition blank_world : Upload.World :=
  Upload.mkWorld
    (fun _ path => inr ("contents of " ++ path))
    (fun _ => inr blank_config)
    (fun _ _ => None)
    (fun _ _ _ => None)
    (fun _ _ => None)
    (fun _ _ _ => None).

(** Worlds of stage 2: the build succeeds; the directory is missing. *)
Definition hugo_ok_world : Hugo.World :=
  Hugo.mkWorld (fun _ => None) (fun _ => None).

Definition hugo_no_dir_world : Hugo.World :=
  Hugo.mkWorld (fun _ => Some "chdir phase2: no such file or directory")
               (fun _ => None).

(* ===================================================================== *)
(** * Stage 1: properties of [processRows] *)
(* ===================================================================== *)

Local Open Scope list_scope.

Section ProcessRows.
Import Excel2Json.

Lemma int_incr_small (n : Z) :
  (0 <= n < Go.int_max)%Z -> Go.int_incr n = (n + 1)%Z.
Proof.
  unfold Go.int_incr, Go.int_wrap, Go.int_max. intros Hn.
  rewrite Z.mod_small; lia.
Qed.

Lemma index_nth_error {A : Type} (s : list A) (i : nat) (x : A) :
  nth_error s i = Some x -> Go.index s i = inr x.
Proof. unfold Go.index. intros ->. reflexivity. Qed.

Lemma index_out_of_range {A : Type} (s : list A) (i : nat) :
  (List.length s <= i)%nat ->
  Go.index s i = inl (Go.IndexOutOfRange i (List.length s)).
Proof.
  intros H. unfold Go.index.
  rewrite (proj2 (nth_error_None s i) H). reflexivity.
Qed.

Lemma index_in_range {A : Type} (s : list A) (i : nat) :
  (i < List.length s)%nat -> exists x, nth_error s i = Some x.
Proof.
  intros H. destruct (nth_error s i) as [x|] eqn:E.
  - now exists x.
  - apply nth_error_None in E. lia.
Qed.

(** Every row either belongs to the table or ends it. *)
Lemma data_or_end (row : list string) :
  {Spec.data_row row} + {Spec.end_row row}.
Proof.
  unfold Spec.data_row, Spec.end_row.
  destruct (le_lt_dec 6 (List.length row)) as [Hlen|Hlen].
  - destruct (nth_error row 1) as [name|] eqn:E.
    + destruct (string_dec name "") as [->|Hne].
      * right. now right.
      * left. split; [assumption|]. intros [= ?]. contradiction.
    + left. split; [assumption|discriminate].
  - right. now left.
Qed.

Lemma endOfData_end (row : list string) :
  Spec.end_row row -> endOfData row = inr true.
Proof.
  unfold endOfData. intros [Hlen|Hname].
  - apply Nat.ltb_lt in Hlen. rewrite Hlen. reflexivity.
  - destruct (List.length row <? 6)%nat; [reflexivity|].
    rewrite (index_nth_error _ _ _ Hname). reflexivity.
Qed.

Lemma endOfData_data (row : list string) :
  Spec.data_row row -> endOfData row = inr false.
Proof.
  unfold endOfData. intros [Hlen Hname].
  rewrite (proj2 (Nat.ltb_ge _ _) Hlen).
  destruct (index_in_range row 1) as [name E]; [lia|].
  rewrite (index_nth_error _ _ _ E). cbn.
  destruct (String.eqb_spec name ""); [|reflexivity].
  subst. contradiction.
Qed.

(** The record the loop body builds from a row of the table. *)
Lemma body_record (row : list string) :
  (6 <= List.length row)%nat ->
  exists u,
    Spec.record_of row u
    /\ (jmeno <- Go.index row 1 ;;
        email <- Go.index row 5 ;;
        prijde <- Go.index row 0 ;;
        ret (mkUser jmeno email prijde)) = inr u.
Proof.
  intros Hlen.
  destruct (index_in_range row 1) as [c1 E1]; [lia|].
  destruct (index_in_range row 5) as [c5 E5]; [lia|].
  destruct (index_in_range row 0) as [c0 E0]; [lia|].
  exists (mkUser c1 c5 c0). split.
  - now repeat split.
  - rewrite (index_nth_error _ _ _ E1), (index_nth_error _ _ _ E5),
      (index_nth_error _ _ _ E0). reflexivity.
Qed.

Lemma count_yes_app (us vs : list User) :
  Spec.count_yes (us ++ vs) = (Spec.count_yes us + Spec.count_yes vs)%nat.
Proof. unfold Spec.count_yes. now rewrite filter_app, length_app. Qed.

(** The header rows: the loop does nothing on the indices below 3. *)
Lemma rangeRows_header (k : nat) :
  forall (i : nat) (rows : list (list string)) (st : LoopState),
    (i + k = 3)%nat ->
    rangeRows i rows st = rangeRows 3 (skipn k rows) st.
Proof.
  induction k as [|k IH]; intros i rows st Hi.
  - replace i with 3%nat by lia. reflexivity.
  - destruct rows as [|row rest]; [reflexivity|].
    cbn [rangeRows skipn].
    replace (i <? 3)%nat with true by (symmetry; apply Nat.ltb_lt; lia).
    apply IH. lia.
Qed.

(** The table: from index 3 on the loop consumes rows of the table until the
    first row that ends it, one record and one count per row. *)
Lemma rangeRows_table (rows : list (list string)) :
  forall (i : nat) (st : LoopState),
    (3 <= i)%nat ->
    (0 <= totalAno st <= totalRecords st)%Z ->
    (0 <= totalRecords st)%Z ->
    (totalRecords st + Z.of_nat (List.length rows) <= Go.int_max)%Z ->
    exists consumed rest us,
      rows = consumed ++ rest
      /\ Forall Spec.data_row consumed
      /\ match rest with [] => True | row :: _ => Spec.end_row row end
      /\ Forall2 Spec.record_of consumed us
      /\ rangeRows i rows st
         = inr (mkLoop (users st ++ us)
                  (totalRecords st + Z.of_nat (List.length consumed))
                  (totalAno st + Z.of_nat (Spec.count_yes us))).
Proof.
  induction rows as [|row rest IH]; intros i st Hi Hano Hrec Hmax.
  - exists [], [], []. cbn. rewrite app_nil_r, !Z.add_0_r.
    destruct st. repeat split; constructor.
  - cbn [rangeRows].
    replace (i <? 3)%nat with false by (symmetry; apply Nat.ltb_ge; lia).
    destruct (data_or_end row) as [Hdata|Hend].
    + rewrite (endOfData_data _ Hdata).
      destruct (body_record row (proj1 Hdata)) as (u & Hu & ->).
      cbn [List.length] in Hmax.
      set (st' := mkLoop _ _ _).
      destruct (IH (S i) st') as (consumed & rest' & us & Hrows & Hall & Hstop
                                  & Hrecs & Hrun).
      * lia.
      * subst st'. cbn [totalRecords totalAno].
        destruct (Prijde_ u =? Ano); rewrite !int_incr_small by lia; lia.
      * subst st'. cbn [totalRecords]. rewrite int_incr_small by lia. lia.
      * subst st'. cbn [totalRecords]. rewrite int_incr_small by lia. lia.
      * exists (row :: consumed), rest', (u :: us).
        split; [now rewrite Hrows|].
        split; [now constructor|].
        split; [assumption|].
        split; [now constructor|].
        rewrite Hrun. subst st'. cbn [users totalRecords totalAno].
        rewrite int_incr_small by lia.
        rewrite <- app_assoc. cbn [app List.length].
        change (u :: us) with ([u] ++ us). rewrite count_yes_app.
        unfold Spec.count_yes at 2. cbn [filter].
        destruct (Prijde_ u =? Ano); cbn [List.length app];
          [rewrite int_incr_small by lia|]; f_equal; f_equal; lia.
    + rewrite (endOfData_end _ Hend).
      exists [], (row :: rest), []. cbn. rewrite app_nil_r, !Z.add_0_r.
      destruct st. repeat split; solve [constructor | assumption].
Qed.

(** The heading and the message, for a grid whose first two rows have a
    cell in column 1 when it has at least two rows. *)
Lemma heading_cells (rows : list (list string)) :
  Spec.header_cells rows = true ->
  exists h,
    heading rows = inr h
    /\ ((2 <= List.length rows)%nat ->
        Spec.cell rows 0 1 = Some (fst h) /\ Spec.cell rows 1 1 = Some (snd h))
    /\ ((List.length rows < 2)%nat -> h = ("", "")).
Proof.
  unfold heading, Spec.header_cells, Spec.cell.
  destruct rows as [|row0 [|row1 rest]]; intros H.
  - exists ("", ""). cbn. repeat split; intros; try reflexivity; lia.
  - exists ("", ""). cbn. repeat split; intros; try reflexivity; lia.
  - apply andb_prop in H as [H0 H1].
    apply Nat.leb_le in H0, H1.
    destruct (index_in_range row0 1) as [n En]; [lia|].
    destruct (index_in_range row1 1) as [z Ez]; [lia|].
    exists (n, z). cbn [List.length nth_error fst snd].
    replace (1 <? S (S (List.length rest)))%nat with true
      by (symmetry; apply Nat.ltb_lt; lia).
    unfold Go.index at 1 3. cbn [nth_error].
    cbn. rewrite (index_nth_error _ _ _ En). cbn.
    rewrite (index_nth_error _ _ _ Ez). cbn.
    repeat split; try assumption. intros; lia.
Qed.

(** With at least two rows and a first or second row of fewer than two
    cells, reading the heading or the message panics. *)
Lemma heading_short (row0 row1 : list string) (rest : list (list string)) :
  (List.length row0 < 2 \/ List.length row1 < 2)%nat ->
  heading (row0 :: row1 :: rest)
  = inl (Go.IndexOutOfRange 1
           (if (List.length row0 <? 2)%nat then List.length row0
            else List.length row1)).
Proof.
  intros H. unfold heading. cbn [List.length].
  replace (1 <? S (S (List.length rest)))%nat with true
    by (symmetry; apply Nat.ltb_lt; lia).
  unfold Go.index at 1 3. cbn [nth_error].
  destruct (Nat.ltb_spec (List.length row0) 2) as [H0|H0].
  - cbn. rewrite index_out_of_range by lia. reflexivity.
  - destruct (index_in_range row0 1) as [n En]; [lia|].
    cbn. rewrite (index_nth_error _ _ _ En). cbn.
    rewrite index_out_of_range by lia. reflexivity.
Qed.

(** The summary [processRows] returns, in terms of the rows it consumed. *)
Lemma processRows_summary (now : Go.Time) (rows : list (list string)) :
  Spec.header_cells rows = true ->
  (Z.of_nat (List.length rows) <= Go.int_max)%Z ->
  exists h consumed rest us,
    heading rows = inr h
    /\ skipn 3 rows = consumed ++ rest
    /\ Forall Spec.data_row consumed
    /\ match rest with [] => True | row :: _ => Spec.end_row row end
    /\ Forall2 Spec.record_of consumed us
    /\ processRows now rows
       = inr (mkData72
                (mkInfo (Go.Format now) (fst h) (snd h)
                        (Z.of_nat (List.length consumed))
                        (Z.of_nat (Spec.count_yes us)))
                us).
Proof.
  intros Hhead Hmax.
  destruct (heading_cells rows Hhead) as (h & Hh & _).
  pose proof (length_skipn 3 rows) as Hlen.
  destruct (rangeRows_table (skipn 3 rows) 3 (mkLoop [] 0 0))
    as (consumed & rest & us & Hrows & Hall & Hstop & Hrecs & Hrun).
  - lia.
  - cbn. lia.
  - cbn. lia.
  - cbn [totalRecords]. lia.
  - exists h, consumed, rest, us. repeat (split; [assumption|]).
    unfold processRows. rewrite Hh.
    rewrite (rangeRows_header 3 0 rows) by reflexivity.
    rewrite Hrun. reflexivity.
Qed.

(** [processRows] returns a summary exactly for the grids whose first two
    rows have a cell in column 1 when there are at least two rows. *)
Lemma processRows_returns_iff (now : Go.Time) (rows : list (list string)) :
  (Z.of_nat (List.length rows) <= Go.int_max)%Z ->
  (exists d, processRows now rows = inr d) <-> Spec.header_cells rows = true.
Proof.
  intros Hmax. split.
  - intros [d Hd].
    destruct (Spec.header_cells rows) eqn:E; [reflexivity|].
    destruct rows as [|row0 [|row1 rest]]; try discriminate E.
    cbn [Spec.header_cells] in E. apply andb_false_iff in E.
    unfold processRows in Hd. rewrite heading_short in Hd.
    + discriminate Hd.
    + destruct E as [E|E]; apply Nat.leb_gt in E; lia.
  - intros H.
    destruct (processRows_summary now rows H Hmax)
      as (h & consumed & rest & us & _ & _ & _ & _ & _ & Hrun).
    eexists. exact Hrun.
Qed.

(** The sample grid: the row [["Ano"]] ends the table, and the row after it
    is not read. *)
Example processRows_sample :
  processRows sample_time sample_rows
  = inr (mkData72
           (mkInfo "7.3.2024 09.05.00" "Sraz 72" "Potvrzujte do konce týdne"
                   2 1)
           [mkUser "Jan Novak" "jan@example.cz" "Ano";
            mkUser "Eva Mala" "eva@example.cz" "Ne"]).
Proof. reflexivity. Qed.

(** C3: for every grid on which a summary is produced, the attendee list is
    made of the rows that follow rows 0 to 2, taken in order up to the first
    row that has fewer than 6 cells or an empty column 1, where processing
    stops; each consumed row gives one record with the name from column 1,
    the email from column 5 and the flag from column 0, and the total count
    of records is the number of consumed rows. *)
Theorem processRows_attendees (now : Go.Time) (rows : list (list string)) :
  Spec.header_cells rows = true ->
  (Z.of_nat (List.length rows) <= Go.int_max)%Z ->
  exists d consumed rest,
    processRows now rows = inr d
    /\ skipn 3 rows = consumed ++ rest
    /\ Forall Spec.data_row consumed
    /\ match rest with [] => True | row :: _ => Spec.end_row row end
    /\ Forall2 Spec.record_of consumed (Users d)
    /\ PocetZaznamu (Info_ d) = Z.of_nat (List.length consumed).
Proof.
  intros Hhead Hmax.
  destruct (processRows_summary now rows Hhead Hmax)
    as (h & consumed & rest & us & _ & Hrows & Hall & Hstop & Hrecs & Hrun).
  eexists; exists consumed, rest.
  split; [exact Hrun|]. cbn. now repeat split.
Qed.

Lemma processRows_attendees_witness :
  exists d consumed rest,
    processRows sample_time sample_rows = inr d
    /\ skipn 3 sample_rows = consumed ++ rest
    /\ Forall Spec.data_row consumed
    /\ match rest with [] => True | row :: _ => Spec.end_row row end
    /\ Forall2 Spec.record_of consumed (Users d)
    /\ PocetZaznamu (Info_ d) = Z.of_nat (List.length consumed).
Proof.
  apply (processRows_attendees sample_time sample_rows).
  - reflexivity.
  - unfold Go.int_max. simpl. lia.
Defined.

(** C4: for every grid on which a summary is produced, the yes count
    [pocetAno] is the number of records of the users list whose flag is the
    marker ["Ano"]; no other record counts. *)
Theorem processRows_pocetAno (now : Go.Time) (rows : list (list string)) :
  Spec.header_cells rows = true ->
  (Z.of_nat (List.length rows) <= Go.int_max)%Z ->
  exists d,
    processRows now rows = inr d
    /\ PocetAno (Info_ d) = Z.of_nat (Spec.count_yes (Users d)).
Proof.
  intros Hhead Hmax.
  destruct (processRows_summary now rows Hhead Hmax)
    as (h & consumed & rest & us & _ & _ & _ & _ & _ & Hrun).
  eexists. split; [exact Hrun|]. reflexivity.
Qed.

Lemma processRows_pocetAno_witness :
  exists d,
    processRows sample_time sample_rows = inr d
    /\ PocetAno (Info_ d) = Z.of_nat (Spec.count_yes (Users d)).
Proof.
  apply (processRows_pocetAno sample_time sample_rows).
  - reflexivity.
  - unfold Go.int_max. simpl. lia.
Defined.

(** C5, as stated, fails: column 0 is copied without any check, so the flag
    of a record can be a string other than ["Ano"], ["Ne"] and the empty
    one. *)
Lemma processRows_flag_not_constrained :
  ~ (forall (now : Go.Time) (rows : list (list string)) (d : Data72)
            (u : User),
        processRows now rows = inr d ->
        In u (Users d) ->
        Prijde_ u = Ano \/ Prijde_ u = Ne \/ Prijde_ u = Empty).
Proof.
  intros H.
  destruct (H sample_time other_flag_rows
              (mkData72
                 (mkInfo "7.3.2024 09.05.00" "Sraz 72" "Zprava" 1 0)
                 [mkUser "Jan Novak" "jan@example.cz" "Mozna"])
              (mkUser "Jan Novak" "jan@example.cz" "Mozna"))
    as [E|[E|E]]; try discriminate E.
  - reflexivity.
  - left. reflexivity.
Qed.

(** C5, amended: for every grid on which a summary is produced, the flag of
    every attendee record is the cell in column 0 of the row the record was
    built from, copied as it is; nothing restricts it to the markers. *)
Theorem processRows_flag_verbatim (now : Go.Time) (rows : list (list string)) :
  Spec.header_cells rows = true ->
  (Z.of_nat (List.length rows) <= Go.int_max)%Z ->
  exists d consumed rest,
    processRows now rows = inr d
    /\ skipn 3 rows = consumed ++ rest
    /\ Forall2 (fun row u => nth_error row 0 = Some (Prijde_ u))
               consumed (Users d).
Proof.
  intros Hhead Hmax.
  destruct (processRows_summary now rows Hhead Hmax)
    as (h & consumed & rest & us & _ & Hrows & _ & _ & Hrecs & Hrun).
  eexists; exists consumed, rest.
  split; [exact Hrun|]. split; [assumption|]. cbn.
  eapply Forall2_impl; [|exact Hrecs].
  intros row u (_ & _ & Hflag). exact Hflag.
Qed.

Lemma processRows_flag_verbatim_witness :
  exists d consumed rest,
    processRows sample_time other_flag_rows = inr d
    /\ skipn 3 other_flag_rows = consumed ++ rest
    /\ Forall2 (fun row u => nth_error row 0 = Some (Prijde_ u))
               consumed (Users d).
Proof.
  apply (processRows_flag_verbatim sample_time other_flag_rows).
  - reflexivity.
  - unfold Go.int_max. simpl. lia.
Defined.

(** C6, as stated, fails: a grid of a single row has a cell at row 0,
    column 1, and the heading of its summary is empty. *)
Lemma processRows_heading_single_row :
  ~ (forall (now : Go.Time) (rows : list (list string)) (d : Data72)
            (h : string),
        processRows now rows = inr d ->
        Spec.cell rows 0 1 = Some h ->
        Nadpis (Info_ d) = h).
Proof.
  intros H.
  specialize (H sample_time [["Akce"; "Sraz 72"]]
                (mkData72 (mkInfo "7.3.2024 09.05.00" "" "" 0 0) [])
                "Sraz 72" eq_refl eq_refl).
  discriminate H.
Qed.

(** C6, amended: for a grid of at least two rows whose first two rows have
    at least two cells, the heading is the cell at row 0, column 1 and the
    message the cell at row 1, column 1; for a grid of fewer than two rows
    both are empty. *)
Theorem processRows_heading (now : Go.Time) (rows : list (list string)) :
  Spec.header_cells rows = true ->
  (Z.of_nat (List.length rows) <= Go.int_max)%Z ->
  exists d,
    processRows now rows = inr d
    /\ ((2 <= List.length rows)%nat ->
        Spec.cell rows 0 1 = Some (Nadpis (Info_ d))
        /\ Spec.cell rows 1 1 = Some (Zprava (Info_ d)))
    /\ ((List.length rows < 2)%nat ->
        Nadpis (Info_ d) = "" /\ Zprava (Info_ d) = "").
Proof.
  intros Hhead Hmax.
  destruct (processRows_summary now rows Hhead Hmax)
    as (h & consumed & rest & us & Hh & _ & _ & _ & _ & Hrun).
  destruct (heading_cells rows Hhead) as (h' & Hh' & Hcells & Hempty).
  rewrite Hh in Hh'. injection Hh' as <-.
  eexists. split; [exact Hrun|]. cbn. split.
  - exact Hcells.
  - intros Hlen. rewrite (Hempty Hlen). now split.
Qed.

Lemma processRows_heading_witness :
  exists d,
    processRows sample_time sample_rows = inr d
    /\ ((2 <= List.length sample_rows)%nat ->
        Spec.cell sample_rows 0 1 = Some (Nadpis (Info_ d))
        /\ Spec.cell sample_rows 1 1 = Some (Zprava (Info_ d)))
    /\ ((List.length sample_rows < 2)%nat ->
        Nadpis (Info_ d) = "" /\ Zprava (Info_ d) = "").
Proof.
  apply (processRows_heading sample_time sample_rows).
  - reflexivity.
  - unfold Go.int_max. simpl. lia.
Defined.

(** C10: reading the heading and the message is guarded by the number of
    rows only.  On every grid of at least two rows whose row 0 or row 1 has
    fewer than two cells, [processRows] panics with an index out of range
    and returns no summary. *)
Theorem processRows_short_header_panics
  (now : Go.Time) (row0 row1 : list string) (rest : list (list string)) :
  (List.length row0 < 2 \/ List.length row1 < 2)%nat ->
  processRows now (row0 :: row1 :: rest)
  = inl (Go.IndexOutOfRange 1
           (if (List.length row0 <? 2)%nat then List.length row0
            else List.length row1)).
Proof.
  intros H. unfold processRows. rewrite (heading_short _ _ _ H). reflexivity.
Qed.

Lemma processRows_short_header_panics_witness :
  processRows sample_time short_header_rows
  = inl (Go.IndexOutOfRange 1 1).
Proof.
  apply (processRows_short_header_panics sample_time ["Akce"] [""; "Zprava"] []).
  left. simpl. lia.
Defined.

End ProcessRows.

(* ===================================================================== *)
(** * Exit status of the three programs *)
(* ===================================================================== *)

Section ExitStatus.

#[local] Arguments Excel2Json.processRows : simpl never.

Lemma hugo_exit_status (w : Hugo.World) :
  fst (Hugo.run w) = if Spec.hugo_fatal w then Go.exit_fatal
                     else Go.exit_success.
Proof.
  unfold Hugo.run, Hugo.main, Spec.hugo_fatal, Spec.failed. cbn.
  destruct (Hugo.os_Chdir w "phase2"); [reflexivity|]. cbn.
  destruct (Hugo.exec_Run w "hugo"); reflexivity.
Qed.

Lemma excel2json_exit_status (w : Excel2Json.World) :
  fst (Excel2Json.run w)
  = match Spec.excel_outcome w with
    | Spec.Panicked => Go.exit_panic
    | _ => Go.exit_success
    end.
Proof.
  unfold Excel2Json.run, Excel2Json.main, Excel2Json.loadConfig,
    Spec.excel_outcome. cbn.
  destruct (Excel2Json.os_Open w "config.json") as [err|file];
    [reflexivity|]. cbn.
  destruct (Excel2Json.json_Decode w file) as [err|config];
    [reflexivity|]. cbn.
  destruct (Excel2Json.excelize_OpenFile w (Excel2Json.InputFile config))
    as [err|f]; [reflexivity|]. cbn.
  unfold Excel2Json.convert.
  destruct (Excel2Json.GetRows f (Excel2Json.GetSheetName0 f))
    as [err|rows]; [reflexivity|].
  destruct (Excel2Json.processRows (Excel2Json.time_Now w) rows)
    as [p|data]; [reflexivity|].
  unfold Excel2Json.writeJSONFile, Spec.failed. cbn.
  destruct (Excel2Json.os_Create w (Excel2Json.OutputFile config));
    [reflexivity|]. cbn.
  destruct (Excel2Json.json_Encode w (Excel2Json.OutputFile config) data);
    reflexivity.
Qed.

End ExitStatus.

(* ===================================================================== *)
(** * Stage 3: properties of the upload client *)
(* ===================================================================== *)

Section UploadClient.
Import Upload.

Lemma opened_app (tr1 tr2 : list Event) :
  opened (tr1 ++ tr2) = opened tr1 ++ opened tr2.
Proof.
  induction tr1 as [|e tr1 IH]; [reflexivity|].
  destruct e; cbn; rewrite IH; reflexivity.
Qed.

Lemma stored_app (tr1 tr2 : list Event) :
  stored (tr1 ++ tr2) = stored tr1 ++ stored tr2.
Proof.
  induction tr1 as [|e tr1 IH]; [reflexivity|].
  destruct e; cbn; rewrite IH; reflexivity.
Qed.

Variable w : World.

(** One call of [uploadFile]: the calls it adds to the trace start with the
    attempt to open [localFile]; a transfer, if one is started, stores under
    the name [localFile]; a run without error has started one. *)
Lemma uploadFile_run (remoteDir localFile : string) (tr : list Event) :
  exists r evs,
    runState (uploadFile w remoteDir localFile) tr = (r, tr ++ evs)
    /\ opened evs = [localFile]
    /\ Forall (fun name => name = localFile) (stored evs)
    /\ match r with
       | None =>
           Spec.upload_fails w remoteDir localFile tr = false
           /\ stored evs = [localFile]
       | Some _ => Spec.upload_fails w remoteDir localFile tr = true
       end.
Proof.
  unfold uploadFile, transfer, call, emit, Spec.upload_fails, Spec.failed.
  cbn.
  destruct (os_Open w tr localFile) as [err|file]; cbn.
  - eexists; exists [OsOpen localFile]. repeat split; constructor.
  - destruct (ftp_ChangeDir w (tr ++ [OsOpen localFile]) remoteDir) as [err|];
      cbn.
    + eexists; exists [OsOpen localFile; FtpChangeDir remoteDir;
                       FileClose localFile].
      rewrite <- !app_assoc. repeat split; constructor.
    + rewrite <- !app_assoc. cbn [app].
      destruct (ftp_Stor w (tr ++ [OsOpen localFile; FtpChangeDir remoteDir])
                  localFile file) as [err|]; cbn.
      * eexists; exists [OsOpen localFile; FtpChangeDir remoteDir;
                         FtpStor localFile file; FileClose localFile].
        rewrite <- !app_assoc. repeat split; repeat constructor.
      * eexists; eexists.
        rewrite <- !app_assoc. cbn [app]. split; [reflexivity|].
        repeat split; repeat constructor.
Qed.

(** One turn of the loop of [main] on an entry that is empty once trimmed. *)
Lemma uploadAll_skip (remoteDir entry : string) (rest : list string) :
  Go.TrimSpace entry = "" ->
  uploadAll w remoteDir (entry :: rest) = uploadAll w remoteDir rest.
Proof. intros E. cbn [uploadAll]. rewrite E. reflexivity. Qed.

(** One turn of the loop on any other entry: the file is uploaded, an error
    is logged, and the loop goes on with the rest. *)
Lemma uploadAll_step (remoteDir entry : string) (rest : list string)
  (tr : list Event) :
  Go.TrimSpace entry <> "" ->
  runState (uploadAll w remoteDir (entry :: rest)) tr
  = runState (uploadAll w remoteDir rest)
      (match runState (uploadFile w remoteDir (Go.TrimSpace entry)) tr with
       | (Some err, tr') => tr' ++ [failure_line (Go.TrimSpace entry) err]
       | (None, tr') => tr'
       end).
Proof.
  intros E. cbn [uploadAll].
  destruct (String.eqb_spec (Go.TrimSpace entry) ""); [contradiction|].
  generalize (uploadFile w remoteDir (Go.TrimSpace entry)). intros c. cbn.
  destruct (runState c tr) as [[err|] tr']; reflexivity.
Qed.

Lemma trimmed_entries_cons (entry : string) (rest : list string) :
  Spec.trimmed_entries (entry :: rest)
  = if Go.TrimSpace entry =? "" then Spec.trimmed_entries rest
    else Go.TrimSpace entry :: Spec.trimmed_entries rest.
Proof.
  unfold Spec.trimmed_entries. cbn [map filter].
  destruct (Go.TrimSpace entry =? ""); reflexivity.
Qed.

Lemma trimmed_entries_nonempty (files : list string) :
  ~ In "" (Spec.trimmed_entries files).
Proof.
  unfold Spec.trimmed_entries. intros H.
  apply filter_In in H as [_ H]. discriminate H.
Qed.

(** The whole loop: it opens the trimmed, non-empty entries in their order,
    and stores under those names only. *)
Lemma uploadAll_run (remoteDir : string) (files : list string) :
  forall tr : list Event,
  exists evs,
    runState (uploadAll w remoteDir files) tr = (tt, tr ++ evs)
    /\ opened evs = Spec.trimmed_entries files
    /\ Forall (fun name => In name (Spec.trimmed_entries files)) (stored evs).
Proof.
  induction files as [|entry rest IH]; intros tr.
  - exists []. cbn. rewrite app_nil_r. repeat split. constructor.
  - rewrite trimmed_entries_cons.
    destruct (String.eqb_spec (Go.TrimSpace entry) "") as [E|E].
    + rewrite (uploadAll_skip _ _ _ E). apply IH.
    + rewrite (uploadAll_step _ _ _ _ E).
      destruct (uploadFile_run remoteDir (Go.TrimSpace entry) tr)
        as (r & evs & Hrun & Hopen & Hstor & _).
      rewrite Hrun.
      set (line := match r with
                   | Some err => [failure_line (Go.TrimSpace entry) err]
                   | None => []
                   end).
      assert (Htr : match r with
                    | Some err =>
                        (tr ++ evs) ++ [failure_line (Go.TrimSpace entry) err]
                    | None => tr ++ evs
                    end = tr ++ evs ++ line).
      { subst line. destruct r; [now rewrite app_assoc|].
        now rewrite app_nil_r. }
      rewrite Htr.
      destruct (IH (tr ++ evs ++ line)) as (evs' & Hrun' & Hopen' & Hstor').
      exists (evs ++ line ++ evs').
      split; [rewrite Hrun'; now rewrite <- !app_assoc|].
      assert (Hline : opened line = [] /\ stored line = []).
      { subst line. destruct r; split; reflexivity. }
      destruct Hline as [Hlo Hls].
      rewrite !opened_app, !stored_app, Hopen, Hlo, Hls, Hopen'.
      split; [reflexivity|].
      cbn [app]. apply Forall_app. split.
      * revert Hstor. apply Forall_impl. intros name ->. now left.
      * revert Hstor'. apply Forall_impl. intros name H. now right.
Qed.

(** The loop over a list in two parts is the loop over the first part
    followed by the loop over the second. *)
Lemma uploadAll_app (remoteDir : string) (pre post : list string) :
  forall tr : list Event,
    runState (uploadAll w remoteDir (pre ++ post)) tr
    = runState (uploadAll w remoteDir post)
        (snd (runState (uploadAll w remoteDir pre) tr)).
Proof.
  induction pre as [|entry pre IH]; intros tr; [reflexivity|].
  cbn [app].
  destruct (String.eqb_spec (Go.TrimSpace entry) "") as [E|E].
  - rewrite !(uploadAll_skip _ _ _ E). apply IH.
  - rewrite !(uploadAll_step _ _ _ _ E). apply IH.
Qed.

(** [main] once the configuration is read. *)
Lemma loadConfig_run (file : string) (config : Config) :
  os_Open w [] "config.json" = inr file ->
  json_Decode w file = inr config ->
  runState (loadConfig w "config.json") [] = (inr config, Spec.config_loaded).
Proof.
  intros Hopen Hdecode. unfold loadConfig, call, emit. cbn.
  rewrite Hopen. cbn. rewrite Hdecode. reflexivity.
Qed.

Lemma connectToFtp_run (config : Config) :
  runState
    (connectToFtp w (FtpHost config) (FtpUser config) (FtpPassword config))
    Spec.config_loaded
  = if Spec.connect_fails w config then
      (match
          ftp_Dial w Spec.config_loaded (FtpHost config),
          ftp_Login w (Spec.config_loaded ++ [FtpDial (FtpHost config)])
            (FtpUser config) (FtpPassword config)
        with
        | Some err, _ =>
            (inl ("chyba při připojování k FTP serveru: " ++ err)%string,
             Spec.config_loaded ++ [FtpDial (FtpHost config)])
        | None, Some err =>
            (inl ("chyba při přihlášení na FTP server: " ++ err)%string,
             Spec.config_loaded
             ++ [FtpDial (FtpHost config);
                 FtpLogin (FtpUser config) (FtpPassword config)])
        | None, None => (inr tt, Spec.connected config)
        end)
    else (inr tt, Spec.connected config).
Proof.
  unfold connectToFtp, call, emit, Spec.connect_fails, Spec.failed. cbn.
  destruct (ftp_Dial w Spec.config_loaded (FtpHost config)); cbn;
    [reflexivity|].
  destruct (ftp_Login w _ (FtpUser config) (FtpPassword config));
    reflexivity.
Qed.

(** [main] when the connection fails: one fatal line, and nothing else. *)
Lemma main_connect_fails (file : string) (config : Config) :
  os_Open w [] "config.json" = inr file ->
  json_Decode w file = inr config ->
  Spec.connect_fails w config = true ->
  exists evs,
    run w = (Go.exit_fatal, Spec.config_loaded ++ evs)
    /\ opened evs = [] /\ stored evs = [].
Proof.
  intros Hopen Hdecode Hfail. unfold run, main.
  cbn [bind Monad_state runState].
  rewrite (loadConfig_run _ _ Hopen Hdecode). cbn [runState].
  rewrite connectToFtp_run, Hfail.
  unfold Spec.connect_fails, Spec.failed in Hfail.
  destruct (ftp_Dial w Spec.config_loaded (FtpHost config)) as [err|].
  - eexists. unfold logFatalf, emit. cbn.
    split; [reflexivity|]. split; reflexivity.
  - destruct (ftp_Login w _ (FtpUser config) (FtpPassword config)) as [err|];
      [|discriminate Hfail].
    eexists. unfold logFatalf, emit. cbn.
    split; [reflexivity|]. split; reflexivity.
Qed.

(** [main] when the connection is made: the loop, then the sign-off. *)
Lemma main_connected (file : string) (config : Config) :
  os_Open w [] "config.json" = inr file ->
  json_Decode w file = inr config ->
  Spec.connect_fails w config = false ->
  run w
  = (Go.exit_success,
     snd (runState (uploadAll w (RemoteDir config) (FilesToUpload config))
            (Spec.connected config))
     ++ [FtpQuit]).
Proof.
  intros Hopen Hdecode Hok. unfold run, main.
  cbn [bind Monad_state runState].
  rewrite (loadConfig_run _ _ Hopen Hdecode). cbn [runState].
  rewrite connectToFtp_run, Hok. cbn [runState].
  destruct (uploadAll_run (RemoteDir config) (FilesToUpload config)
              (Spec.connected config)) as (evs & Hrun & _).
  rewrite Hrun. reflexivity.
Qed.

Lemma upload_exit_status :
  fst (run w) = if Spec.upload_fatal w then Go.exit_fatal
                else Go.exit_success.
Proof.
  unfold Spec.upload_fatal.
  destruct (os_Open w [] "config.json") as [err|file] eqn:Hopen.
  - unfold run, main, loadConfig, call, emit. cbn. rewrite Hopen.
    reflexivity.
  - destruct (json_Decode w file) as [err|config] eqn:Hdecode.
    + unfold run, main, loadConfig, call, emit. cbn. rewrite Hopen. cbn.
      rewrite Hdecode. reflexivity.
    + destruct (Spec.connect_fails w config) eqn:Hc.
      * destruct (main_connect_fails _ _ Hopen Hdecode Hc) as (evs & -> & _).
        reflexivity.
      * rewrite (main_connected _ _ Hopen Hdecode Hc). reflexivity.
Qed.

End UploadClient.

Section UploadClaims.
Import Upload.

(** The base name of a path without separator is the path itself. *)
Lemma base_name_plain (path : string) :
  path <> "" ->
  Forall (fun c => Spec.isSeparator c = false) (list_ascii_of_string path) ->
  Spec.base_name path = path.
Proof.
  intros Hne Hplain. unfold Spec.base_name.
  destruct (String.eqb_spec path ""); [contradiction|].
  assert (Hrev : Forall (fun c => Spec.isSeparator c = false)
                   (rev (list_ascii_of_string path))).
  { apply Forall_rev. exact Hplain. }
  assert (Hlast : forall r,
             Forall (fun c => Spec.isSeparator c = false) r ->
             Spec.dropSeparators r = r /\ Spec.lastElement r = r).
  { induction 1 as [|c r Hc Hr [IH1 IH2]]; [now split|].
    cbn. rewrite Hc. split; [reflexivity|]. now rewrite IH2. }
  destruct (Hlast _ Hrev) as [Hdrop Hlst]. rewrite Hdrop.
  destruct (rev (list_ascii_of_string path)) as [|c r] eqn:E.
  - apply (f_equal (@rev ascii)) in E. rewrite rev_involutive in E.
    apply (f_equal string_of_list_ascii) in E.
    rewrite string_of_list_ascii_of_string in E. contradiction.
  - rewrite Hlst, <- E, rev_involutive.
    apply string_of_list_ascii_of_string.
Qed.

(** C1, as stated, fails: the file [public/index.html] is stored under the
    remote name [public/index.html], and its base name is [index.html]. *)
Lemma uploadFile_name_not_base :
  ~ (forall (w : World) (remoteDir localFile name : string),
        In name (stored (snd (runState (uploadFile w remoteDir localFile) [])))
        -> name = Spec.base_name localFile).
Proof.
  intros H.
  specialize (H sample_world "/www" "public/index.html" "public/index.html").
  assert (E : "public/index.html" = Spec.base_name "public/index.html").
  { apply H. left. reflexivity. }
  discriminate E.
Qed.

(** C1, amended: every call of [uploadFile] attempts to open the local path
    it is given, and whenever it starts a transfer the remote name is that
    same path, directory components included; a call that returns no error
    has stored the file under that name. *)
Theorem uploadFile_remote_name
  (w : World) (remoteDir localFile : string) (tr : list Event) :
  exists r evs,
    runState (uploadFile w remoteDir localFile) tr = (r, tr ++ evs)
    /\ opened evs = [localFile]
    /\ Forall (fun name => name = localFile) (stored evs)
    /\ match r with
       | None => stored evs = [localFile]
       | Some _ => True
       end.
Proof.
  destruct (uploadFile_run w remoteDir localFile tr)
    as (r & evs & Hrun & Hopen & Hnames & Hr).
  exists r, evs. repeat (split; [assumption|]).
  destruct r; [exact I|]. apply Hr.
Qed.

(** C7: once connected, the files [main] attempts to upload are the entries
    of [files_to_upload] trimmed of surrounding white space, without those
    that are empty once trimmed, in the order of the list; no attempt is
    made to open an empty name. *)
Theorem main_upload_attempts (w : World) (file : string) (config : Config) :
  os_Open w [] "config.json" = inr file ->
  json_Decode w file = inr config ->
  Spec.connect_fails w config = false ->
  exists evs,
    run w = (Go.exit_success, Spec.connected config ++ evs ++ [FtpQuit])
    /\ opened evs = Spec.trimmed_entries (FilesToUpload config)
    /\ ~ In "" (opened evs).
Proof.
  intros Hopen Hdecode Hok.
  rewrite (main_connected w _ _ Hopen Hdecode Hok).
  destruct (uploadAll_run w (RemoteDir config) (FilesToUpload config)
              (Spec.connected config)) as (evs & Hrun & Hopened & _).
  exists evs. rewrite Hrun. cbn [snd]. rewrite <- app_assoc.
  split; [reflexivity|]. split; [assumption|].
  rewrite Hopened. apply trimmed_entries_nonempty.
Qed.

Lemma main_upload_attempts_witness :
  exists evs,
    run sample_world
    = (Go.exit_success, Spec.connected sample_config ++ evs ++ [FtpQuit])
    /\ opened evs = Spec.trimmed_entries (FilesToUpload sample_config)
    /\ ~ In "" (opened evs).
Proof.
  apply (main_upload_attempts sample_world "{}" sample_config);
    reflexivity.
Defined.

(** The run of the sample world: [notes.txt] cannot be opened, and
    [public/index.html] is uploaded after it. *)
Example run_sample_world :
  run sample_world
  = (0%Z,
     Spec.connected sample_config
     ++ [OsOpen "report.pdf"; FtpChangeDir "/www";
         FtpStor "report.pdf" "contents of report.pdf";
         Log "Soubor 'report.pdf' byl úspěšně nahrán na server.";
         FileClose "report.pdf";
         OsOpen "notes.txt";
         failure_line "notes.txt"
           "chyba při otevření lokálního souboru 'notes.txt': no such file or directory";
         OsOpen "public/index.html"; FtpChangeDir "/www";
         FtpStor "public/index.html" "contents of public/index.html";
         Log "Soubor 'public/index.html' byl úspěšně nahrán na server.";
         FileClose "public/index.html";
         FtpQuit]).
Proof. reflexivity. Qed.

(** [TrimSpace] removes the white space outside ASCII as well: here a
    no-break space (U+00A0) in front and an ideographic space (U+3000)
    behind. *)
Example TrimSpace_unicode :
  Go.TrimSpace "  report.pdf　" = "report.pdf".
Proof. reflexivity. Qed.

(** The example of the specification. *)
Example trimmed_entries_example :
  Spec.trimmed_entries [" report.pdf "; ""; "notes.txt"]
  = ["report.pdf"; "notes.txt"].
Proof. reflexivity. Qed.

(** C8: when the dial or the authentication fails, [main] ends with the
    fatal exit status and, after reading the configuration, has opened no
    local file and started no transfer. *)
Theorem connect_failure_no_upload
  (w : World) (file : string) (config : Config) :
  os_Open w [] "config.json" = inr file ->
  json_Decode w file = inr config ->
  Spec.connect_fails w config = true ->
  exists evs,
    run w = (Go.exit_fatal, Spec.config_loaded ++ evs)
    /\ opened evs = [] /\ stored evs = [].
Proof. apply main_connect_fails. Qed.

Lemma connect_failure_no_upload_witness :
  exists evs,
    run refused_world = (Go.exit_fatal, Spec.config_loaded ++ evs)
    /\ opened evs = [] /\ stored evs = [].
Proof.
  apply (connect_failure_no_upload refused_world "{}" sample_config);
    reflexivity.
Defined.

(** C9: when the upload of one file of the list fails, because the local
    file cannot be opened, the remote directory cannot be entered or the
    transfer fails, the error is logged, every entry that follows in the
    list is still attempted, and [main] ends with the sign-off and exit
    status 0. *)
Theorem main_continues_after_failure
  (w : World) (file : string) (config : Config)
  (pre : list string) (entry : string) (post : list string) :
  os_Open w [] "config.json" = inr file ->
  json_Decode w file = inr config ->
  Spec.connect_fails w config = false ->
  FilesToUpload config = pre ++ entry :: post ->
  (Go.TrimSpace entry =? "") = false ->
  let tr := snd (runState (uploadAll w (RemoteDir config) pre)
                   (Spec.connected config)) in
  Spec.upload_fails w (RemoteDir config) (Go.TrimSpace entry) tr = true ->
  exists err evs after,
    run w
    = (Go.exit_success,
       tr ++ evs ++ [failure_line (Go.TrimSpace entry) err] ++ after
       ++ [FtpQuit])
    /\ opened evs = [Go.TrimSpace entry]
    /\ opened after = Spec.trimmed_entries post.
Proof.
  intros Hopen Hdecode Hok Hfiles Hentry tr Hfails.
  rewrite (main_connected w _ _ Hopen Hdecode Hok), Hfiles.
  rewrite uploadAll_app. fold tr.
  apply String.eqb_neq in Hentry.
  rewrite (uploadAll_step w _ _ _ _ Hentry).
  destruct (uploadFile_run w (RemoteDir config) (Go.TrimSpace entry) tr)
    as (r & evs & Hrun & Hopened & _ & Hr).
  rewrite Hrun. destruct r as [err|].
  - destruct (uploadAll_run w (RemoteDir config) post
                ((tr ++ evs) ++ [failure_line (Go.TrimSpace entry) err]))
      as (after & Hrun' & Hopened' & _).
    exists err, evs, after. rewrite Hrun'. cbn [snd].
    rewrite <- !app_assoc. repeat split; assumption.
  - destruct Hr as [Hr _]. rewrite Hr in Hfails. discriminate Hfails.
Qed.

Lemma main_continues_after_failure_witness :
  exists err evs after,
    run sample_world
    = (Go.exit_success,
       snd (runState (uploadAll sample_world "/www" [" report.pdf "; ""])
              (Spec.connected sample_config))
       ++ evs ++ [failure_line "notes.txt" err] ++ after ++ [FtpQuit])
    /\ opened evs = ["notes.txt"]
    /\ opened after = Spec.trimmed_entries ["public/index.html"].
Proof.
  apply (main_continues_after_failure sample_world "{}" sample_config
           [" report.pdf "; ""] "notes.txt" ["public/index.html"]);
    reflexivity.
Defined.

End UploadClaims.

Section ExitStatusClaim.

(** C2, as stated, fails: stage 1 ends with exit status 0 when its
    configuration cannot be loaded. *)
Lemma excel2json_config_failure_exit_0 :
  ~ (forall w : Excel2Json.World,
        Spec.excel_outcome w = Spec.ConfigFailed ->
        fst (Excel2Json.run w) <> 0%Z).
Proof.
  intros H. apply (H no_config_world); reflexivity.
Qed.

(** C2, amended: stage 2 ends with exit status 1 when the directory change
    or the subprocess fails, stage 3 when the configuration cannot be loaded
    or parsed or when the dial or the authentication fails, and both end
    with 0 otherwise; stage 1 returns from [main] on each of its fatal
    conditions (configuration, workbook open, rows read, summary write), so
    that it ends with exit status 0 on them as it does on success. *)
Theorem exit_status
  (w1 : Excel2Json.World) (w2 : Hugo.World) (w3 : Upload.World) :
  fst (Hugo.run w2) = (if Spec.hugo_fatal w2 then 1 else 0)%Z
  /\ fst (Upload.run w3) = (if Spec.upload_fatal w3 then 1 else 0)%Z
  /\ fst (Excel2Json.run w1)
     = match Spec.excel_outcome w1 with
       | Spec.Panicked => 2%Z
       | _ => 0%Z
       end.
Proof.
  split; [apply hugo_exit_status|].
  split; [apply upload_exit_status|].
  apply excel2json_exit_status.
Qed.

End ExitStatusClaim.

(* ===================================================================== *)
(** * Stage 1: further properties of [processRows] *)
(* ===================================================================== *)

Section ProcessRowsMore.
Import Excel2Json.

(** The loop itself never panics: every index of its body is covered by the
    test on the length of the row. *)
Lemma rangeRows_returns (rows : list (list string)) :
  forall (i : nat) (st : LoopState),
    exists st', rangeRows i rows st = inr st'.
Proof.
  induction rows as [|row rest IH]; intros i st.
  - now exists st.
  - cbn [rangeRows]. destruct (i <? 3)%nat; [apply IH|].
    destruct (data_or_end row) as [Hdata|Hend].
    + rewrite (endOfData_data _ Hdata).
      destruct (body_record row (proj1 Hdata)) as (u & _ & ->). apply IH.
    + rewrite (endOfData_end _ Hend). now exists st.
Qed.

(** X1: the only panic [processRows] can raise is the one of the heading:
    the grid has at least two rows, one of the first two has fewer than two
    cells, and the panic is the index 1 out of the range of that row. *)
Theorem processRows_panic_is_heading
  (now : Go.Time) (rows : list (list string)) (p : Go.Panic) :
  processRows now rows = inl p ->
  exists row0 row1 rest,
    rows = row0 :: row1 :: rest
    /\ (List.length row0 < 2 \/ List.length row1 < 2)%nat
    /\ p = Go.IndexOutOfRange 1
             (if (List.length row0 <? 2)%nat then List.length row0
              else List.length row1).
Proof.
  intros Hp. destruct (Spec.header_cells rows) eqn:Hhead.
  - destruct (heading_cells rows Hhead) as (h & Hh & _).
    destruct (rangeRows_returns rows 0 (mkLoop [] 0 0)) as [st Hst].
    unfold processRows in Hp. rewrite Hh, Hst in Hp. discriminate Hp.
  - destruct rows as [|row0 [|row1 rest]]; try discriminate Hhead.
    cbn [Spec.header_cells] in Hhead. apply andb_false_iff in Hhead.
    assert (Hshort : (List.length row0 < 2 \/ List.length row1 < 2)%nat).
    { destruct Hhead as [E|E]; apply Nat.leb_gt in E; lia. }
    exists row0, row1, rest. split; [reflexivity|]. split; [assumption|].
    unfold processRows in Hp. rewrite (heading_short _ _ _ Hshort) in Hp.
    cbn in Hp. now injection Hp as <-.
Qed.

Lemma processRows_panic_is_heading_witness :
  exists row0 row1 rest,
    short_header_rows = row0 :: row1 :: rest
    /\ (List.length row0 < 2 \/ List.length row1 < 2)%nat
    /\ Go.IndexOutOfRange 1 1
       = Go.IndexOutOfRange 1
           (if (List.length row0 <? 2)%nat then List.length row0
            else List.length row1).
Proof.
  apply (processRows_panic_is_heading sample_time short_header_rows).
  reflexivity.
Defined.

Lemma Forall2_same_length {A B : Type} (R : A -> B -> Prop)
  (l : list A) (l' : list B) :
  Forall2 R l l' -> List.length l = List.length l'.
Proof. induction 1; cbn; congruence. Qed.

Lemma count_yes_le (us : list User) :
  (Spec.count_yes us <= List.length us)%nat.
Proof. unfold Spec.count_yes. apply filter_length_le. Qed.

(** X2: in every summary the total count is the length of the users list,
    and the yes count lies between 0 and the total count. *)
Theorem processRows_counts (now : Go.Time) (rows : list (list string)) :
  Spec.header_cells rows = true ->
  (Z.of_nat (List.length rows) <= Go.int_max)%Z ->
  exists d,
    processRows now rows = inr d
    /\ PocetZaznamu (Info_ d) = Z.of_nat (List.length (Users d))
    /\ (0 <= PocetAno (Info_ d) <= PocetZaznamu (Info_ d))%Z.
Proof.
  intros Hhead Hmax.
  destruct (processRows_summary now rows Hhead Hmax)
    as (h & consumed & rest & us & _ & _ & _ & _ & Hrecs & Hrun).
  eexists. split; [exact Hrun|]. cbn.
  pose proof (Forall2_same_length _ _ _ Hrecs) as Hlen.
  pose proof (count_yes_le us) as Hle.
  split; [now rewrite Hlen|]. lia.
Qed.

Lemma processRows_counts_witness :
  exists d,
    processRows sample_time sample_rows = inr d
    /\ PocetZaznamu (Info_ d) = Z.of_nat (List.length (Users d))
    /\ (0 <= PocetAno (Info_ d) <= PocetZaznamu (Info_ d))%Z.
Proof.
  apply (processRows_counts sample_time sample_rows).
  - reflexivity.
  - unfold Go.int_max. simpl. lia.
Defined.

(** X3: no record of the users list has an empty name. *)
Theorem processRows_names_not_empty
  (now : Go.Time) (rows : list (list string)) :
  Spec.header_cells rows = true ->
  (Z.of_nat (List.length rows) <= Go.int_max)%Z ->
  exists d,
    processRows now rows = inr d
    /\ Forall (fun u => Jmeno u <> "") (Users d).
Proof.
  intros Hhead Hmax.
  destruct (processRows_summary now rows Hhead Hmax)
    as (h & consumed & rest & us & _ & _ & Hall & _ & Hrecs & Hrun).
  eexists. split; [exact Hrun|]. cbn.
  clear Hrun. induction Hrecs as [|row u consumed' us' Hrec Hrecs IH];
    [constructor|].
  inversion Hall as [|? ? Hrow Hall']; subst.
  constructor; [|now apply IH].
  destruct Hrow as [_ Hname]. destruct Hrec as (Hj & _ & _).
  intros E. apply Hname. now rewrite Hj, E.
Qed.

Lemma processRows_names_not_empty_witness :
  exists d,
    processRows sample_time sample_rows = inr d
    /\ Forall (fun u => Jmeno u <> "") (Users d).
Proof.
  apply (processRows_names_not_empty sample_time sample_rows).
  - reflexivity.
  - unfold Go.int_max. simpl. lia.
Defined.

(** Past a row that ends the table the loop reads nothing. *)
Lemma rangeRows_stops (stop : list string) (post post' : list (list string)) :
  Spec.end_row stop ->
  forall (pre : list (list string)) (i : nat) (st : LoopState),
    (3 <= i + List.length pre)%nat ->
    rangeRows i (pre ++ stop :: post) st
    = rangeRows i (pre ++ stop :: post') st.
Proof.
  intros Hstop. induction pre as [|row pre IH]; intros i st Hi.
  - cbn [app rangeRows]. cbn [List.length] in Hi.
    replace (i <? 3)%nat with false by (symmetry; apply Nat.ltb_ge; lia).
    rewrite (endOfData_end _ Hstop). reflexivity.
  - cbn [app rangeRows]. cbn [List.length] in Hi.
    destruct (i <? 3)%nat; [apply IH; lia|].
    destruct (endOfData row) as [p|[|]]; try reflexivity.
    match goal with
    | |- context [match ?x with inl _ => _ | inr _ => _ end] => destruct x
    end; [reflexivity|].
    apply IH. lia.
Qed.

(** The heading and the message are read from the first two rows only. *)
Lemma heading_prefix (pre rest rest' : list (list string)) :
  (2 <= List.length pre)%nat ->
  heading (pre ++ rest) = heading (pre ++ rest').
Proof.
  destruct pre as [|row0 [|row1 pre]]; cbn [List.length]; intros H;
    try lia.
  reflexivity.
Qed.

(** X4: the rows that follow the first row ending the table have no effect
    on the result, whatever they hold: a row of fewer than six cells or
    with an empty column 1 cuts the attendee list. *)
Theorem processRows_ignores_rows_after_end
  (now : Go.Time) (pre : list (list string)) (stop : list string)
  (post post' : list (list string)) :
  (3 <= List.length pre)%nat ->
  Spec.end_row stop ->
  processRows now (pre ++ stop :: post)
  = processRows now (pre ++ stop :: post').
Proof.
  intros Hpre Hstop. unfold processRows.
  rewrite (heading_prefix pre (stop :: post) (stop :: post')) by lia.
  rewrite (rangeRows_stops stop post post' Hstop pre 0) by lia.
  reflexivity.
Qed.

Lemma processRows_ignores_rows_after_end_witness :
  processRows sample_time sample_rows
  = processRows sample_time (firstn 5 sample_rows ++ [["Ano"]]).
Proof.
  apply (processRows_ignores_rows_after_end sample_time
           (firstn 5 sample_rows) ["Ano"]
           [["Ano"; "Petr Zeman"; ""; ""; ""; "petr@example.cz"]] []).
  - simpl. lia.
  - left. simpl. lia.
Defined.

(** X5: a grid of at most three rows, the header rows only, gives a summary
    with an empty users list and both counts 0. *)
Theorem processRows_header_only (now : Go.Time) (rows : list (list string)) :
  (List.length rows <= 3)%nat ->
  Spec.header_cells rows = true ->
  exists d,
    processRows now rows = inr d
    /\ Users d = []
    /\ PocetZaznamu (Info_ d) = 0%Z
    /\ PocetAno (Info_ d) = 0%Z.
Proof.
  intros Hlen Hhead.
  assert (Hmax : (Z.of_nat (List.length rows) <= Go.int_max)%Z)
    by (unfold Go.int_max; lia).
  destruct (processRows_summary now rows Hhead Hmax)
    as (h & consumed & rest & us & _ & Hrows & _ & _ & Hrecs & Hrun).
  rewrite skipn_all2 in Hrows by assumption.
  symmetry in Hrows. apply app_eq_nil in Hrows as [-> _].
  inversion Hrecs; subst.
  eexists. split; [exact Hrun|]. now repeat split.
Qed.

Lemma processRows_header_only_witness :
  exists d,
    processRows sample_time (firstn 3 sample_rows) = inr d
    /\ Users d = []
    /\ PocetZaznamu (Info_ d) = 0%Z
    /\ PocetAno (Info_ d) = 0%Z.
Proof.
  apply (processRows_header_only sample_time (firstn 3 sample_rows)).
  - simpl. lia.
  - reflexivity.
Defined.

(** X6: the reading of the clock goes into [lastUpdate] and nowhere else:
    two runs on the same grid at different times panic alike or return
    summaries that differ in that field only. *)
Theorem processRows_clock (now now' : Go.Time) (rows : list (list string)) :
  match processRows now rows, processRows now' rows with
  | inr d, inr d' =>
      Users d = Users d'
      /\ Nadpis (Info_ d) = Nadpis (Info_ d')
      /\ Zprava (Info_ d) = Zprava (Info_ d')
      /\ PocetZaznamu (Info_ d) = PocetZaznamu (Info_ d')
      /\ PocetAno (Info_ d) = PocetAno (Info_ d')
      /\ LastUpdate (Info_ d) = Go.Format now
      /\ LastUpdate (Info_ d') = Go.Format now'
  | inl p, inl p' => p = p'
  | _, _ => False
  end.
Proof.
  unfold processRows.
  destruct (heading rows) as [p|h]; [reflexivity|].
  destruct (rangeRows 0 rows (mkLoop [] 0 0)) as [p|st]; [reflexivity|].
  cbn. now repeat split.
Qed.

End ProcessRowsMore.

(* ===================================================================== *)
(** * Stage 1: the program around [processRows] *)
(* ===================================================================== *)

Section Excel2JsonMain.
Import Excel2Json.

#[local] Arguments processRows : simpl never.

(** The run of [main] for each way the outside world can answer. *)
Lemma excel2json_run (w : World) :
  run w
  = match os_Open w "config.json" with
    | inl err =>
        (0%Z,
         [OsOpen "config.json";
          Println ("Chyba při načítání konfigurace: " ++ err)%string])
    | inr file =>
    match json_Decode w file with
    | inl err =>
        (0%Z,
         [OsOpen "config.json"; FileClose "config.json";
          Println ("Chyba při načítání konfigurace: " ++ err)%string])
    | inr config =>
    let start :=
      [OsOpen "config.json"; FileClose "config.json";
       ExcelOpenFile (InputFile config)] in
    match excelize_OpenFile w (InputFile config) with
    | inl err =>
        (0%Z,
         start
         ++ [Println ("Chyba při otevírání Excel souboru: " ++ err)%string])
    | inr f =>
    match GetRows f (GetSheetName0 f) with
    | inl err =>
        (0%Z,
         start
         ++ [Println ("Chyba při čtení řádků ze souboru: " ++ err)%string;
             ExcelClose (InputFile config)])
    | inr rows =>
    match processRows (time_Now w) rows with
    | inl p => (2%Z, start ++ [ExcelClose (InputFile config); PanicExit p])
    | inr data =>
    match os_Create w (OutputFile config) with
    | Some err =>
        (0%Z,
         start
         ++ [OsCreate (OutputFile config);
             Println ("Chyba při zápisu JSON souboru: " ++ err)%string;
             ExcelClose (InputFile config)])
    | None =>
    match json_Encode w (OutputFile config) data with
    | Some err =>
        (0%Z,
         start
         ++ [OsCreate (OutputFile config);
             JsonEncode (OutputFile config) data;
             FileClose (OutputFile config);
             Println ("Chyba při zápisu JSON souboru: " ++ err)%string;
             ExcelClose (InputFile config)])
    | None =>
        (0%Z,
         start
         ++ [OsCreate (OutputFile config);
             JsonEncode (OutputFile config) data;
             FileClose (OutputFile config);
             Println ("Soubor " ++ OutputFile config
                      ++ " byl úspěšně vytvořen.")%string;
             ExcelClose (InputFile config)])
    end end end end end end end.
Proof.
  unfold run, main, loadConfig, openExcelFile. cbn.
  destruct (os_Open w "config.json") as [err|file]; [reflexivity|]. cbn.
  destruct (json_Decode w file) as [err|config]; [reflexivity|]. cbn.
  destruct (excelize_OpenFile w (InputFile config)) as [err|f];
    [reflexivity|]. cbn.
  unfold convert.
  destruct (GetRows f (GetSheetName0 f)) as [err|rows]; [reflexivity|].
  destruct (processRows (time_Now w) rows) as [p|data]; [reflexivity|].
  unfold writeJSONFile. cbn.
  destruct (os_Create w (OutputFile config)); [reflexivity|]. cbn.
  destruct (json_Encode w (OutputFile config) data); reflexivity.
Qed.

(** Case analysis on the answers of the world, in the order [main] asks
    for them. *)
Ltac excel_world_cases w :=
  rewrite (excel2json_run w);
  destruct (os_Open w "config.json") as [?err|?file] eqn:?Hopen;
  [|destruct (json_Decode w _) as [?err|?config] eqn:?Hdecode;
    [|destruct (excelize_OpenFile w _) as [?err|?f] eqn:?Hexcel;
      [|destruct (GetRows _ _) as [?err|?rows] eqn:?Hrows;
        [|destruct (processRows _ _) as [?p|?data] eqn:?Hdata;
          [|destruct (os_Create w _) as [?err|] eqn:?Hcreate;
            [|destruct (json_Encode w _ _) as [?err|] eqn:?Hencode]]]]]];
  cbn [snd fst app].

Ltac in_trace H :=
  cbn [In] in H;
  repeat (destruct H as [H|H]; [try discriminate H|]);
  try contradiction.

(** X7: the output file is created only once the configuration, the
    workbook and the rows of its first sheet are read and [processRows] has
    returned a summary, and only at the configured output path; a run that
    fails before writes nothing. *)
Theorem main_creates_output_last (w : World) (path : string) :
  In (OsCreate path) (snd (run w)) ->
  exists file config f rows data,
    os_Open w "config.json" = inr file
    /\ json_Decode w file = inr config
    /\ excelize_OpenFile w (InputFile config) = inr f
    /\ GetRows f (GetSheetName0 f) = inr rows
    /\ processRows (time_Now w) rows = inr data
    /\ path = OutputFile config.
Proof.
  excel_world_cases w; intros H; in_trace H;
    injection H as <-; repeat eexists; eassumption.
Qed.

Lemma main_creates_output_last_witness :
  exists file config f rows data,
    os_Open (excel_world (workbook sample_rows)) "config.json" = inr file
    /\ json_Decode (excel_world (workbook sample_rows)) file = inr config
    /\ excelize_OpenFile (excel_world (workbook sample_rows))
         (InputFile config) = inr f
    /\ GetRows f (GetSheetName0 f) = inr rows
    /\ processRows (time_Now (excel_world (workbook sample_rows))) rows
       = inr data
    /\ "out.json" = OutputFile config.
Proof.
  apply (main_creates_output_last (excel_world (workbook sample_rows))).
  simpl. tauto.
Defined.

(** X8: once the configuration is read, the workbook is closed in exactly
    the runs that opened it: also when its rows cannot be read, when
    [processRows] panics and when the summary cannot be written. *)
Theorem main_closes_workbook (w : World) (file : string) (config : Config) :
  os_Open w "config.json" = inr file ->
  json_Decode w file = inr config ->
  In (ExcelClose (InputFile config)) (snd (run w))
  <-> exists f, excelize_OpenFile w (InputFile config) = inr f.
Proof.
  intros Ho Hd. rewrite excel2json_run, Ho, Hd. cbn zeta.
  destruct (excelize_OpenFile w (InputFile config)) as [err|f].
  - split; [intros H; in_trace H|intros [f Hf]; discriminate Hf].
  - split; [intros _; now exists f|intros _].
    destruct (GetRows f (GetSheetName0 f)) as [err|rows];
      [|destruct (processRows (time_Now w) rows) as [p|data];
        [|destruct (os_Create w (OutputFile config));
          [|destruct (json_Encode w (OutputFile config) data)]]];
      cbn; tauto.
Qed.

Lemma main_closes_workbook_witness :
  In (ExcelClose "in.xlsx")
     (snd (run (excel_world (workbook short_header_rows))))
  <-> exists f,
        excelize_OpenFile (excel_world (workbook short_header_rows))
          "in.xlsx" = inr f.
Proof.
  apply (main_closes_workbook (excel_world (workbook short_header_rows))
           "{}" (mkConfig "in.xlsx" "out.json")); reflexivity.
Defined.

(** X9: when every step succeeds, [main] encodes to the configured output
    file the summary [processRows] returns for the rows of the first sheet
    at the time of the clock, closes both files, prints the line of
    success and ends with exit status 0. *)
Theorem main_writes_summary
  (w : World) (file : string) (config : Config) (f : ExcelFile)
  (rows : list (list string)) (data : Data72) :
  os_Open w "config.json" = inr file ->
  json_Decode w file = inr config ->
  excelize_OpenFile w (InputFile config) = inr f ->
  GetRows f (GetSheetName0 f) = inr rows ->
  processRows (time_Now w) rows = inr data ->
  os_Create w (OutputFile config) = None ->
  json_Encode w (OutputFile config) data = None ->
  run w
  = (0%Z,
     [OsOpen "config.json"; FileClose "config.json";
      ExcelOpenFile (InputFile config);
      OsCreate (OutputFile config);
      JsonEncode (OutputFile config) data;
      FileClose (OutputFile config);
      Println ("Soubor " ++ OutputFile config
               ++ " byl úspěšně vytvořen.")%string;
      ExcelClose (InputFile config)]).
Proof.
  intros Ho Hd He Hr Hp Hc Hj.
  rewrite excel2json_run, Ho, Hd, He, Hr, Hp, Hc, Hj. reflexivity.
Qed.

Lemma main_writes_summary_witness :
  exists data,
    processRows sample_time sample_rows = inr data
    /\ run (excel_world (workbook sample_rows))
       = (0%Z,
          [OsOpen "config.json"; FileClose "config.json";
           ExcelOpenFile "in.xlsx"; OsCreate "out.json";
           JsonEncode "out.json" data; FileClose "out.json";
           Println "Soubor out.json byl úspěšně vytvořen.";
           ExcelClose "in.xlsx"]).
Proof.
  eexists. split; [reflexivity|].
  apply (main_writes_summary (excel_world (workbook sample_rows)) "{}"
           (mkConfig "in.xlsx" "out.json") (workbook sample_rows)
           sample_rows); reflexivity.
Defined.

(** X10: when the first sheet has at least two rows and its row 0 or row 1
    has fewer than two cells, the panic of [processRows] ends the program
    with exit status 2: the deferred close of the workbook runs, no output
    file is created and nothing is printed. *)
Theorem main_panics_on_short_header
  (w : World) (file : string) (config : Config) (f : ExcelFile)
  (row0 row1 : list string) (rest : list (list string)) :
  os_Open w "config.json" = inr file ->
  json_Decode w file = inr config ->
  excelize_OpenFile w (InputFile config) = inr f ->
  GetRows f (GetSheetName0 f) = inr (row0 :: row1 :: rest) ->
  (List.length row0 < 2 \/ List.length row1 < 2)%nat ->
  run w
  = (2%Z,
     [OsOpen "config.json"; FileClose "config.json";
      ExcelOpenFile (InputFile config);
      ExcelClose (InputFile config);
      PanicExit
        (Go.IndexOutOfRange 1
           (if (List.length row0 <? 2)%nat then List.length row0
            else List.length row1))]).
Proof.
  intros Ho Hd He Hr Hshort.
  rewrite excel2json_run, Ho, Hd, He, Hr.
  unfold processRows. rewrite (heading_short _ _ _ Hshort). reflexivity.
Qed.

Lemma main_panics_on_short_header_witness :
  run (excel_world (workbook short_header_rows))
  = (2%Z,
     [OsOpen "config.json"; FileClose "config.json";
      ExcelOpenFile "in.xlsx"; ExcelClose "in.xlsx";
      PanicExit (Go.IndexOutOfRange 1 1)]).
Proof.
  apply (main_panics_on_short_header
           (excel_world (workbook short_header_rows)) "{}"
           (mkConfig "in.xlsx" "out.json") (workbook short_header_rows)
           ["Akce"] [""; "Zprava"] []);
    try reflexivity.
  left. simpl. lia.
Defined.

End Excel2JsonMain.

(* ===================================================================== *)
(** * Stage 2: the calls of the wrapper *)
(* ===================================================================== *)

Section HugoMain.
Import Hugo.

(** X11: the generator is run exactly when the change to the directory
    [phase2] succeeded, and the line of success is logged exactly when the
    wrapper ends with exit status 0. *)
Theorem hugo_runs_in_phase2 (w : World) :
  (In (ExecRun "hugo") (snd (run w)) <-> os_Chdir w "phase2" = None)
  /\ (In (Log "Hugo build succeeded") (snd (run w)) <-> fst (run w) = 0%Z).
Proof.
  unfold run, main, logFatalf, emit. cbn.
  destruct (os_Chdir w "phase2") as [err|]; cbn.
  - split; split; intros H; try discriminate H.
    + destruct H as [H|[H|[]]]; discriminate H.
    + destruct H as [H|[H|[]]]; discriminate H.
  - destruct (exec_Run w "hugo") as [err|]; cbn.
    + split; split; intros H; try discriminate H; try tauto.
      destruct H as [H|[H|[H|[]]]]; discriminate H.
    + split; split; intros H; try reflexivity; tauto.
Qed.

End HugoMain.

(* ===================================================================== *)
(** * Stage 3: the calls of the upload client *)
(* ===================================================================== *)

Section UploadTrace.
Import Upload.
Variable w : World.

(** The run of [uploadFile] for each way the outside world can answer. *)
Lemma uploadFile_trace (remoteDir localFile : string) (tr : list Event) :
  runState (uploadFile w remoteDir localFile) tr
  = match os_Open w tr localFile with
    | inl err =>
        (Some ("chyba při otevření lokálního souboru '" ++ localFile
               ++ "': " ++ err)%string,
         tr ++ [OsOpen localFile])
    | inr file =>
    match ftp_ChangeDir w (tr ++ [OsOpen localFile]) remoteDir with
    | Some err =>
        (Some ("chyba při změně adresáře na serveru '" ++ remoteDir
               ++ "': " ++ err)%string,
         tr ++ [OsOpen localFile; FtpChangeDir remoteDir;
                FileClose localFile])
    | None =>
    match
      ftp_Stor w (tr ++ [OsOpen localFile; FtpChangeDir remoteDir])
        localFile file
    with
    | Some err =>
        (Some ("chyba při nahrávání souboru '" ++ localFile
               ++ "' na server: " ++ err)%string,
         tr ++ [OsOpen localFile; FtpChangeDir remoteDir;
                FtpStor localFile file; FileClose localFile])
    | None =>
        (None,
         tr ++ [OsOpen localFile; FtpChangeDir remoteDir;
                FtpStor localFile file;
                Log ("Soubor '" ++ localFile
                     ++ "' byl úspěšně nahrán na server.")%string;
                FileClose localFile])
    end end end.
Proof.
  unfold uploadFile, transfer, call, emit. cbn.
  destruct (os_Open w tr localFile) as [err|file]; cbn; [reflexivity|].
  destruct (ftp_ChangeDir w (tr ++ [OsOpen localFile]) remoteDir) as [err|];
    cbn.
  - now rewrite <- !app_assoc.
  - rewrite <- !app_assoc. cbn [app].
    destruct (ftp_Stor w (tr ++ [OsOpen localFile; FtpChangeDir remoteDir])
                localFile file) as [err|]; cbn;
      now rewrite <- !app_assoc.
Qed.

(** The run of [main] for each way the outside world can answer. *)
Lemma upload_run :
  run w
  = match os_Open w [] "config.json" with
    | inl err =>
        (1%Z,
         [OsOpen "config.json";
          Log ("Chyba při načítání konfigurace: "
               ++ "chyba při otevírání souboru konfigurace 'config.json': "
               ++ err)%string])
    | inr file =>
    match json_Decode w file with
    | inl err =>
        (1%Z,
         Spec.config_loaded
         ++ [Log ("Chyba při načítání konfigurace: "
                  ++ "chyba při dekódování konfigurace: " ++ err)%string])
    | inr config =>
    match ftp_Dial w Spec.config_loaded (FtpHost config) with
    | Some err =>
        (1%Z,
         Spec.config_loaded
         ++ [FtpDial (FtpHost config);
             Log ("Chyba: " ++ "chyba při připojování k FTP serveru: "
                  ++ err)%string])
    | None =>
    match
      ftp_Login w (Spec.config_loaded ++ [FtpDial (FtpHost config)])
        (FtpUser config) (FtpPassword config)
    with
    | Some err =>
        (1%Z,
         Spec.config_loaded
         ++ [FtpDial (FtpHost config);
             FtpLogin (FtpUser config) (FtpPassword config);
             Log ("Chyba: " ++ "chyba při přihlášení na FTP server: "
                  ++ err)%string])
    | None =>
        (0%Z,
         snd (runState
                (uploadAll w (RemoteDir config) (FilesToUpload config))
                (Spec.connected config))
         ++ [FtpQuit])
    end end end end.
Proof.
  destruct (os_Open w [] "config.json") as [err|file] eqn:Hopen.
  - unfold run, main, loadConfig, call, emit, logFatalf. cbn.
    rewrite Hopen. reflexivity.
  - destruct (json_Decode w file) as [err|config] eqn:Hdecode.
    + unfold run, main, loadConfig, call, emit, logFatalf. cbn.
      rewrite Hopen. cbn. rewrite Hdecode. reflexivity.
    + destruct (Spec.connect_fails w config) eqn:Hc.
      * unfold run, main. cbn [bind Monad_state runState].
        rewrite (loadConfig_run w _ _ Hopen Hdecode). cbn [runState].
        rewrite connectToFtp_run, Hc.
        unfold Spec.connect_fails, Spec.failed in Hc.
        destruct (ftp_Dial w Spec.config_loaded (FtpHost config));
          [reflexivity|].
        destruct (ftp_Login w _ (FtpUser config) (FtpPassword config));
          [reflexivity|discriminate Hc].
      * rewrite (main_connected w _ _ Hopen Hdecode Hc).
        unfold Spec.connect_fails, Spec.failed in Hc.
        destruct (ftp_Dial w Spec.config_loaded (FtpHost config));
          [discriminate Hc|].
        destruct (ftp_Login w _ (FtpUser config) (FtpPassword config));
          [discriminate Hc|reflexivity].
Qed.

Lemma trimmed_entries_tail (entry : string) (rest : list string)
  (name : string) :
  In name (Spec.trimmed_entries rest) ->
  In name (Spec.trimmed_entries (entry :: rest)).
Proof.
  rewrite trimmed_entries_cons.
  destruct (Go.TrimSpace entry =? ""); [tauto|]. now right.
Qed.

(** The calls of the loop: files of the list, trimmed, are opened, stored
    under their name and closed; the directory entered is [remoteDir];
    the connection is neither opened nor closed. *)
Lemma uploadAll_events (remoteDir : string) (files : list string) :
  forall tr : list Event,
  exists evs,
    runState (uploadAll w remoteDir files) tr = (tt, tr ++ evs)
    /\ Forall
         (fun e =>
            match e with
            | OsOpen path | FileClose path =>
                In path (Spec.trimmed_entries files)
            | FtpStor name _ => In name (Spec.trimmed_entries files)
            | FtpChangeDir dir => dir = remoteDir
            | Log _ => True
            | FtpDial _ | FtpLogin _ _ | FtpQuit => False
            end) evs.
Proof.
  induction files as [|entry rest IH]; intros tr.
  - exists []. cbn. rewrite app_nil_r. split; constructor.
  - destruct (String.eqb_spec (Go.TrimSpace entry) "") as [E|E].
    + rewrite (uploadAll_skip _ _ _ _ E).
      destruct (IH tr) as (evs & Hrun & Hall). exists evs.
      split; [assumption|]. revert Hall. apply Forall_impl.
      intros [] H; try assumption; now apply trimmed_entries_tail.
    + rewrite (uploadAll_step _ _ _ _ _ E), uploadFile_trace.
      assert (Hin : In (Go.TrimSpace entry)
                      (Spec.trimmed_entries (entry :: rest))).
      { rewrite trimmed_entries_cons.
        destruct (String.eqb_spec (Go.TrimSpace entry) "");
          [contradiction|now left]. }
      assert (Hrest : forall evs,
                 Forall
                   (fun e =>
                      match e with
                      | OsOpen path | FileClose path =>
                          In path (Spec.trimmed_entries rest)
                      | FtpStor name _ =>
                          In name (Spec.trimmed_entries rest)
                      | FtpChangeDir dir => dir = remoteDir
                      | Log _ => True
                      | FtpDial _ | FtpLogin _ _ | FtpQuit => False
                      end) evs ->
                 Forall
                   (fun e =>
                      match e with
                      | OsOpen path | FileClose path =>
                          In path (Spec.trimmed_entries (entry :: rest))
                      | FtpStor name _ =>
                          In name (Spec.trimmed_entries (entry :: rest))
                      | FtpChangeDir dir => dir = remoteDir
                      | Log _ => True
                      | FtpDial _ | FtpLogin _ _ | FtpQuit => False
                      end) evs).
      { intros evs. apply Forall_impl.
        intros [] H; try assumption; now apply trimmed_entries_tail. }
      destruct (os_Open w tr (Go.TrimSpace entry)) as [err|file];
        [|destruct (ftp_ChangeDir w _ remoteDir) as [err|];
          [|destruct (ftp_Stor w _ (Go.TrimSpace entry) file) as [err|]]];
        match goal with
        | |- context [runState (uploadAll w remoteDir rest) ?t] =>
            destruct (IH t) as (evs & Hrun & Hall)
        end;
        rewrite Hrun, <- ?app_assoc; cbn [app];
        eexists; (split; [reflexivity|]);
        repeat (constructor; [first [exact Hin|reflexivity|exact I]|]);
        now apply Hrest.
Qed.

End UploadTrace.

Section UploadMore.
Import Upload.

(** X12: whatever [uploadFile] sends to the server is the opened local
    file, under the name it was opened by: a transfer is started only when
    the local file could be opened and the remote directory entered, and
    its contents are those of the opened file. *)
Theorem uploadFile_sends_opened_file
  (w : World) (remoteDir localFile : string) (tr : list Event) :
  exists r evs,
    runState (uploadFile w remoteDir localFile) tr = (r, tr ++ evs)
    /\ forall name contents,
         In (FtpStor name contents) evs ->
         name = localFile
         /\ os_Open w tr localFile = inr contents
         /\ ftp_ChangeDir w (tr ++ [OsOpen localFile]) remoteDir = None.
Proof.
  rewrite uploadFile_trace.
  destruct (os_Open w tr localFile) as [err|file];
    [|destruct (ftp_ChangeDir w _ remoteDir) as [err|];
      [|destruct (ftp_Stor w _ localFile file) as [err|]]];
    eexists; eexists; (split; [reflexivity|]);
    intros name contents H; cbn [In] in H;
    repeat (destruct H as [H|H]; [try discriminate H|]);
    try contradiction;
    injection H as <- <-; now repeat split.
Qed.

(** X13: [uploadFile] closes the local file exactly when it could open it,
    and then as its last call, whichever step fails in between; a file that
    cannot be opened leads to no other call. *)
Theorem uploadFile_closes_local_file
  (w : World) (remoteDir localFile : string) (tr : list Event) :
  exists r evs,
    runState (uploadFile w remoteDir localFile) tr = (r, tr ++ evs)
    /\ match os_Open w tr localFile with
       | inl _ => evs = [OsOpen localFile]
       | inr _ =>
           exists mid,
             evs = OsOpen localFile :: mid ++ [FileClose localFile]
             /\ forall path,
                  ~ In (OsOpen path) mid /\ ~ In (FileClose path) mid
       end.
Proof.
  rewrite uploadFile_trace.
  destruct (os_Open w tr localFile) as [err|file];
    [eexists; eexists; split; reflexivity|].
  destruct (ftp_ChangeDir w _ remoteDir) as [err|];
    [|destruct (ftp_Stor w _ localFile file) as [err|]];
    eexists; eexists; (split; [reflexivity|]).
  - exists [FtpChangeDir remoteDir]. split; [reflexivity|].
    intros path; split; intros [H|[]]; discriminate H.
  - exists [FtpChangeDir remoteDir; FtpStor localFile file].
    split; [reflexivity|].
    intros path; split; intros [H|[H|[]]]; discriminate H.
  - eexists [FtpChangeDir remoteDir; FtpStor localFile file; Log _].
    split; [reflexivity|].
    intros path; split; intros [H|[H|[H|[]]]]; discriminate H.
Qed.

(** X14: every change of directory on the server is to the configured
    remote directory: the run has one target directory for all files. *)
Theorem main_changes_to_remote_dir
  (w : World) (file : string) (config : Config) (dir : string) :
  os_Open w [] "config.json" = inr file ->
  json_Decode w file = inr config ->
  In (FtpChangeDir dir) (snd (run w)) ->
  dir = RemoteDir config.
Proof.
  intros Ho Hd. rewrite upload_run, Ho, Hd.
  destruct (ftp_Dial w Spec.config_loaded (FtpHost config)) as [err|];
    [|destruct (ftp_Login w _ (FtpUser config) (FtpPassword config))
        as [err|]]; cbn [snd].
  - intros H. cbn in H. repeat (destruct H as [H|H]; [discriminate H|]).
    contradiction.
  - intros H. cbn in H. repeat (destruct H as [H|H]; [discriminate H|]).
    contradiction.
  - destruct (uploadAll_events w (RemoteDir config) (FilesToUpload config)
                (Spec.connected config)) as (evs & -> & Hall).
    cbn [snd]. intros H. rewrite !in_app_iff in H.
    destruct H as [[H|H]|H].
    + cbn in H. repeat (destruct H as [H|H]; [discriminate H|]).
      contradiction.
    + rewrite Forall_forall in Hall. exact (Hall _ H).
    + destruct H as [H|[]]. discriminate H.
Qed.

Lemma main_changes_to_remote_dir_witness : "/www" = RemoteDir sample_config.
Proof.
  apply (main_changes_to_remote_dir sample_world "{}" sample_config "/www").
  - reflexivity.
  - reflexivity.
  - simpl. tauto.
Defined.

(** X15: every remote name a run stores under is an entry of
    [files_to_upload], trimmed and not empty, and a transfer is started
    only on a connection that was dialled and authenticated. *)
Theorem main_stores_configured_names
  (w : World) (file : string) (config : Config) (name contents : string) :
  os_Open w [] "config.json" = inr file ->
  json_Decode w file = inr config ->
  In (FtpStor name contents) (snd (run w)) ->
  In name (Spec.trimmed_entries (FilesToUpload config))
  /\ Spec.connect_fails w config = false.
Proof.
  intros Ho Hd. rewrite upload_run, Ho, Hd.
  unfold Spec.connect_fails, Spec.failed.
  destruct (ftp_Dial w Spec.config_loaded (FtpHost config)) as [err|];
    [|destruct (ftp_Login w _ (FtpUser config) (FtpPassword config))
        as [err|]]; cbn [snd].
  - intros H. cbn in H. repeat (destruct H as [H|H]; [discriminate H|]).
    contradiction.
  - intros H. cbn in H. repeat (destruct H as [H|H]; [discriminate H|]).
    contradiction.
  - destruct (uploadAll_events w (RemoteDir config) (FilesToUpload config)
                (Spec.connected config)) as (evs & -> & Hall).
    cbn [snd]. intros H. rewrite !in_app_iff in H.
    destruct H as [[H|H]|H].
    + cbn in H. repeat (destruct H as [H|H]; [discriminate H|]).
      contradiction.
    + rewrite Forall_forall in Hall. split; [exact (Hall _ H)|reflexivity].
    + destruct H as [H|[]]. discriminate H.
Qed.

Lemma main_stores_configured_names_witness :
  In "public/index.html"
     (Spec.trimmed_entries (FilesToUpload sample_config))
  /\ Spec.connect_fails sample_world sample_config = false.
Proof.
  apply (main_stores_configured_names sample_world "{}" sample_config
           "public/index.html" "contents of public/index.html").
  - reflexivity.
  - reflexivity.
  - simpl. tauto.
Defined.


(** X17: when the configuration file cannot be opened or parsed, the
    program ends with exit status 1 having done nothing else: the only
    calls are on [config.json] and the log, and the server is never
    dialled. *)
Theorem main_without_config (w : World) :
  (forall file,
      os_Open w [] "config.json" = inr file ->
      exists err, json_Decode w file = inl err) ->
  fst (run w) = 1%Z
  /\ Forall
       (fun e =>
          match e with
          | OsOpen path | FileClose path => path = "config.json"
          | Log _ => True
          | _ => False
          end) (snd (run w)).
Proof.
  intros Hbad. rewrite upload_run.
  destruct (os_Open w [] "config.json") as [err|file].
  - split; [reflexivity|]. repeat constructor.
  - destruct (Hbad file eq_refl) as [err ->].
    split; [reflexivity|]. repeat constructor.
Qed.

Lemma main_without_config_witness :
  fst (run bad_config_world) = 1%Z
  /\ Forall
       (fun e =>
          match e with
          | OsOpen path | FileClose path => path = "config.json"
          | Log _ => True
          | _ => False
          end) (snd (run bad_config_world)).
Proof.
  apply (main_without_config bad_config_world).
  intros file _. eexists. reflexivity.
Defined.




(** The loop over entries that are all empty once trimmed makes no call. *)
Lemma uploadAll_blank (w : World) (remoteDir : string) (files : list string) :
  Spec.trimmed_entries files = [] ->
  forall tr, runState (uploadAll w remoteDir files) tr = (tt, tr).
Proof.
  induction files as [|entry rest IH]; intros Hblank tr; [reflexivity|].
  rewrite trimmed_entries_cons in Hblank.
  destruct (String.eqb_spec (Go.TrimSpace entry) "") as [E|E];
    [|discriminate Hblank].
  rewrite (uploadAll_skip _ _ _ _ E). now apply IH.
Qed.

(** X19: with an empty [files_to_upload], or one whose entries are all
    blank, the program connects, signs off and ends with exit status 0
    without any other call. *)
Theorem main_nothing_to_upload
  (w : World) (file : string) (config : Config) :
  os_Open w [] "config.json" = inr file ->
  json_Decode w file = inr config ->
  Spec.connect_fails w config = false ->
  Spec.trimmed_entries (FilesToUpload config) = [] ->
  run w = (0%Z, Spec.connected config ++ [FtpQuit]).
Proof.
  intros Ho Hd Hc Hblank.
  rewrite (main_connected w _ _ Ho Hd Hc).
  now rewrite (uploadAll_blank w _ _ Hblank).
Qed.

Lemma main_nothing_to_upload_witness :
  run blank_world = (0%Z, Spec.connected blank_config ++ [FtpQuit]).
Proof.
  apply (main_nothing_to_upload blank_world "contents of config.json"
           blank_config); reflexivity.
Defined.

(** X20: the server dialled is the configured host, and the credentials
    sent are the configured user and password, sent only once the dial has
    succeeded. *)
Theorem main_logs_in_after_dial
  (w : World) (file : string) (config : Config) :
  os_Open w [] "config.json" = inr file ->
  json_Decode w file = inr config ->
  (forall addr, In (FtpDial addr) (snd (run w)) -> addr = FtpHost config)
  /\ (forall user password,
         In (FtpLogin user password) (snd (run w)) ->
         user = FtpUser config /\ password = FtpPassword config
         /\ ftp_Dial w Spec.config_loaded (FtpHost config) = None).
Proof.
  intros Ho Hd. rewrite upload_run, Ho, Hd.
  destruct (ftp_Dial w Spec.config_loaded (FtpHost config)) as [err|];
    [|destruct (ftp_Login w _ (FtpUser config) (FtpPassword config))
        as [err|]]; cbn [snd].
  - split; intros; cbn in *;
      repeat match goal with
             | H : _ \/ _ |- _ => destruct H as [H|H]
             | H : False |- _ => contradiction
             | H : FtpDial _ = FtpDial _ |- _ => now injection H
             | H : _ = _ |- _ => discriminate H
             end.
  - split; intros; cbn in *;
      repeat match goal with
             | H : _ \/ _ |- _ => destruct H as [H|H]
             | H : False |- _ => contradiction
             | H : FtpDial _ = FtpDial _ |- _ => now injection H
             | H : FtpLogin _ _ = FtpLogin _ _ |- _ =>
                 injection H as <- <-; now repeat split
             | H : _ = _ |- _ => discriminate H
             end.
  - destruct (uploadAll_events w (RemoteDir config) (FilesToUpload config)
                (Spec.connected config)) as (evs & -> & Hall).
    rewrite Forall_forall in Hall. cbn [snd].
    split; intros; rewrite !in_app_iff in *;
      repeat match goal with
             | H : _ \/ _ |- _ => destruct H as [H|H]
             end;
      try (exfalso; exact (Hall _ H));
      cbn in *;
      repeat match goal with
             | H : _ \/ _ |- _ => destruct H as [H|H]
             | H : False |- _ => contradiction
             | H : FtpDial _ = FtpDial _ |- _ => now injection H
             | H : FtpLogin _ _ = FtpLogin _ _ |- _ =>
                 injection H as <- <-; now repeat split
             | H : _ = _ |- _ => discriminate H
             end.
Qed.

Lemma main_logs_in_after_dial_witness :
  (forall addr,
      In (FtpDial addr) (snd (run refused_world)) ->
      addr = FtpHost sample_config)
  /\ (forall user password,
         In (FtpLogin user password) (snd (run refused_world)) ->
         user = FtpUser sample_config /\ password = FtpPassword sample_config
         /\ ftp_Dial refused_world Spec.config_loaded (FtpHost sample_config)
            = None).
Proof.
  apply (main_logs_in_after_dial refused_world "{}" sample_config);
    reflexivity.
Defined.

End UploadMore.

(* ===================================================================== *)
(** * Stage 3: the names the loop opens *)
(* ===================================================================== *)

Section TrimmedNames.
Import Upload.

(** What is left by the trimming on the left does not start with an ASCII
    white space. *)
Lemma trimLeft_head (n : nat) :
  forall s : list ascii,
    (List.length s <= n)%nat ->
    match Go.trimLeft s with
    | [] => True
    | c :: _ => Go.isAsciiSpace c = false
    end.
Proof.
  induction n as [|n IH]; intros s Hlen.
  - destruct s; [exact I|cbn in Hlen; lia].
  - destruct s as [|b1 t1]; [exact I|]. cbn [List.length] in Hlen.
    cbn [Go.trimLeft]. destruct (Go.isAsciiSpace b1) eqn:E1.
    + apply IH. lia.
    + destruct t1 as [|b2 t2]; [exact E1|]. cbn [List.length] in Hlen.
      destruct (Go.isSpace2 b1 b2); [apply IH; lia|].
      destruct t2 as [|b3 t3]; [exact E1|]. cbn [List.length] in Hlen.
      destruct (Go.isSpace3 b1 b2 b3); [apply IH; lia|exact E1].
Qed.

(** The same for the trimming on the right, on the reversed bytes; what it
    leaves is an end of what it is given. *)
Lemma trimRightRev_head (n : nat) :
  forall r : list ascii,
    (List.length r <= n)%nat ->
    match Go.trimRightRev r with
    | [] => True
    | c :: _ => Go.isAsciiSpace c = false
    end
    /\ exists cut, r = cut ++ Go.trimRightRev r.
Proof.
  induction n as [|n IH]; intros r Hlen.
  - destruct r; [split; [exact I|now exists []]|cbn in Hlen; lia].
  - destruct r as [|b1 t1]; [split; [exact I|now exists []]|].
    cbn [List.length] in Hlen. cbn [Go.trimRightRev].
    destruct (Go.isAsciiSpace b1) eqn:E1.
    + destruct (IH t1) as [Hhead [cut Hcut]]; [lia|].
      split; [exact Hhead|]. exists (b1 :: cut). cbn. now rewrite <- Hcut.
    + destruct t1 as [|b2 t2]; [split; [exact E1|now exists []]|].
      cbn [List.length] in Hlen.
      destruct (Go.isSpace2 b2 b1).
      * destruct (IH t2) as [Hhead [cut Hcut]]; [lia|].
        split; [exact Hhead|]. exists (b1 :: b2 :: cut). cbn.
        now rewrite <- Hcut.
      * destruct t2 as [|b3 t3]; [split; [exact E1|now exists []]|].
        cbn [List.length] in Hlen.
        destruct (Go.isSpace3 b3 b2 b1).
        -- destruct (IH t3) as [Hhead [cut Hcut]]; [lia|].
           split; [exact Hhead|]. exists (b1 :: b2 :: b3 :: cut). cbn.
           now rewrite <- Hcut.
        -- split; [exact E1|now exists []].
Qed.

(** A trimmed string neither starts nor ends with an ASCII white space. *)
Lemma TrimSpace_ends (s : string) (c : ascii) :
  (hd_error (list_ascii_of_string (Go.TrimSpace s)) = Some c ->
   Go.isAsciiSpace c = false)
  /\ (hd_error (rev (list_ascii_of_string (Go.TrimSpace s))) = Some c ->
      Go.isAsciiSpace c = false).
Proof.
  unfold Go.TrimSpace. rewrite list_ascii_of_string_of_list_ascii.
  set (l := Go.trimLeft (list_ascii_of_string s)).
  pose proof (trimLeft_head _ (list_ascii_of_string s) (le_n _)) as Hl.
  fold l in Hl.
  destruct (trimRightRev_head _ (rev l) (le_n _)) as [Hr [cut Hcut]].
  set (t := Go.trimRightRev (rev l)) in *.
  split.
  - intros Hc.
    assert (El : l = rev t ++ rev cut).
    { rewrite <- rev_app_distr, <- Hcut. now rewrite rev_involutive. }
    destruct (rev t) as [|c' t'] eqn:Et; [discriminate Hc|].
    injection Hc as ->. rewrite El in Hl. exact Hl.
  - rewrite rev_involutive. intros Hc.
    destruct t as [|c' t']; [discriminate Hc|].
    injection Hc as ->. exact Hr.
Qed.

(** X21: every local path the loop tries to open is an entry trimmed by
    [strings.TrimSpace]: it is not empty and neither its first nor its last
    byte is an ASCII white space (space, tab, line feed, vertical tab, form
    feed, carriage return). *)
Theorem uploadAll_opens_trimmed_names
  (w : World) (remoteDir : string) (files : list string) (tr : list Event) :
  exists evs,
    runState (uploadAll w remoteDir files) tr = (tt, tr ++ evs)
    /\ Forall
         (fun path =>
            path <> ""
            /\ forall c,
                 (hd_error (list_ascii_of_string path) = Some c ->
                  Go.isAsciiSpace c = false)
                 /\ (hd_error (rev (list_ascii_of_string path)) = Some c ->
                     Go.isAsciiSpace c = false))
         (opened evs).
Proof.
  destruct (uploadAll_run w remoteDir files tr) as (evs & Hrun & Hopened & _).
  exists evs. split; [assumption|]. rewrite Hopened.
  unfold Spec.trimmed_entries. apply Forall_forall. intros path Hin.
  apply filter_In in Hin as [Hin Hne]. apply in_map_iff in Hin as (s & <- & _).
  split.
  - intros E. rewrite E in Hne. discriminate Hne.
  - intros c. apply TrimSpace_ends.
Qed.

End TrimmedNames.

Section HeaderRows.
Import Excel2Json.

(** The heading and the message of a grid whose first two rows have a
    cell in column 1. *)
Lemma heading_of_cells (row0 row1 : list string) (rest : list (list string))
  (h m : string) :
  nth_error row0 1 = Some h ->
  nth_error row1 1 = Some m ->
  heading (row0 :: row1 :: rest) = inr (h, m).
Proof.
  intros Hh Hm. unfold heading. cbn [List.length].
  replace (1 <? S (S (List.length rest)))%nat with true
    by (symmetry; apply Nat.ltb_lt; lia).
  unfold Go.index at 1 3. cbn [nth_error]. cbn.
  rewrite (index_nth_error _ _ _ Hh). cbn.
  rewrite (index_nth_error _ _ _ Hm). reflexivity.
Qed.

(** X22: the three header rows contribute the heading and the message and
    nothing else: two grids whose rows 0 and 1 agree on the cell in column
    1 and whose rows from index 3 on are the same give the same result,
    whatever their row 2 and the other cells of rows 0 and 1 hold. *)
Theorem processRows_header_rows
  (now : Go.Time) (row0 row0' row1 row1' row2 row2' : list string)
  (rest : list (list string)) (h m : string) :
  nth_error row0 1 = Some h -> nth_error row0' 1 = Some h ->
  nth_error row1 1 = Some m -> nth_error row1' 1 = Some m ->
  processRows now (row0 :: row1 :: row2 :: rest)
  = processRows now (row0' :: row1' :: row2' :: rest).
Proof.
  intros H0 H0' H1 H1'. unfold processRows.
  rewrite (heading_of_cells row0 row1 _ h m H0 H1).
  rewrite (heading_of_cells row0' row1' _ h m H0' H1').
  reflexivity.
Qed.

Lemma processRows_header_rows_witness :
  processRows sample_time sample_rows
  = processRows sample_time
      (["x"; "Sraz 72"; "y"]
       :: ["z"; "Potvrzujte do konce týdne"] :: [] :: skipn 3 sample_rows).
Proof.
  apply (processRows_header_rows sample_time
           ["Akce"; "Sraz 72"] ["x"; "Sraz 72"; "y"]
           [""; "Potvrzujte do konce týdne"]
           ["z"; "Potvrzujte do konce týdne"]
           ["Prijde"; "Jmeno"; ""; ""; ""; "email"] []
           (skipn 3 sample_rows) "Sraz 72" "Potvrzujte do konce týdne");
    reflexivity.
Defined.

End HeaderRows.
